(** * module/wide_resnet.py: the searched Wide ResNet and its weight loading

    A shallow embedding of [BasicBlock], [Wide_ResNet_Cifar] and
    [wide_resnet_cifar].  The numeric kernels of the tensor library
    (convolution, batch normalisation, ...) are left uninterpreted; tensor
    shapes, module structure, string-keyed state dictionaries, checkpoint
    file names and exceptions are modelled explicitly. *)

From Stdlib Require Import String Ascii List ZArith Lia Bool DecimalString.
Import ListNotations.
Local Open Scope string_scope.

(* ================================================================== *)
(** * Python values *)
(* ================================================================== *)

Module Py.

(** Exceptions the modelled code can raise. *)
Inductive exn : Type :=
| AttributeError
| IndexError
| ValueError
| FileNotFoundError
| RuntimeError
| ZeroDivisionError
| AssertionError.

Inductive result (A : Type) : Type :=
| Ok (a : A)
| Raise (e : exn).
Arguments Ok {A} a.
Arguments Raise {A} e.

Definition bind {A B} (r : result A) (k : A -> result B) : result B :=
  match r with
  | Ok a => k a
  | Raise e => Raise e
  end.

(** [k.startswith(p)] *)
Definition startswith (k p : string) : bool := String.prefix p k.

(** [k[n:]]; slicing past the end gives the empty string. *)
Fixpoint slice_from (n : nat) (k : string) : string :=
  match n, k with
  | O, _ => k
  | S _, EmptyString => EmptyString
  | S n', String _ k' => slice_from n' k'
  end.

(** ["{}".format(n)] for an integer [n]. *)
Definition str_of_int (n : Z) : string := NilZero.string_of_int (Z.to_int n).

(** ["{}".format(v)] for a value that is [None] or a string. *)
Definition str_of_opt (v : option string) : string :=
  match v with
  | Some s => s
  | None => "None"
  end.

(** [l[i]] for an integer [i]: negative positions count from the end. *)
Definition getitem {A} (l : list A) (i : Z) : result A :=
  let n := Z.of_nat (length l) in
  let j := if (i <? 0)%Z then (i + n)%Z else i in
  if ((0 <=? j) && (j <? n))%Z
  then match nth_error l (Z.to_nat j) with
       | Some a => Ok a
       | None => Raise IndexError
       end
  else Raise IndexError.

(** [l.index(x)]: the first position of [x]. *)
Fixpoint index (x : string) (l : list string) : result nat :=
  match l with
  | [] => Raise ValueError
  | y :: l' =>
      if String.eqb y x then Ok O
      else bind (index x l') (fun i => Ok (S i))
  end.

(** A [dict] with string keys: the entries in insertion order. *)
Definition dict (V : Type) : Type := list (string * V).

(** [d.get(k)] *)
Fixpoint get {V} (k : string) (d : dict V) : option V :=
  match d with
  | [] => None
  | (k', v) :: d' => if String.eqb k' k then Some v else get k d'
  end.

(** [d[k] = v]: an existing key keeps its place, a new one goes last. *)
Fixpoint set {V} (k : string) (v : V) (d : dict V) : dict V :=
  match d with
  | [] => [(k, v)]
  | (k', v') :: d' =>
      if String.eqb k' k then (k', v) :: d' else (k', v') :: set k v d'
  end.

(** [d.update(d2)] *)
Definition update {V} (d d2 : dict V) : dict V :=
  fold_left (fun acc kv => set (fst kv) (snd kv) acc) d2 d.

(** [{k[n:]: v for k, v in d.items() if k.startswith(p)}] *)
Definition strip_comprehension {V} (n : nat) (p : string) (d : dict V)
  : dict V :=
  fold_left
    (fun acc kv =>
       if startswith (fst kv) p
       then set (slice_from n (fst kv)) (snd kv) acc
       else acc)
    d [].

Definition keys {V} (d : dict V) : list string := map fst d.

End Py.

Import Py.

Notation "'let?' x ':=' e 'in' k" := (Py.bind e (fun x => k))
  (at level 10, x name, e at level 100, k at level 200).

(* ================================================================== *)
(** * The tensor library *)
(* ================================================================== *)

(** A tensor: its size and its numeric contents. *)
Record tensor (D : Type) : Type := { shape : list nat; data : D }.
Arguments shape {D} t.
Arguments data {D} t.

(** The numeric side of the framework, delegated to it entirely: [Data] is
    the contents of a tensor, [Scalar] a Python float, [Rng] the state of
    the random generator, [float_lit m e] the float literal [m * 10^e],
    [Weights] the value handed from the Gumbel-Softmax sampler to
    [torch.cat] and [torch.argmax].  A kernel that takes a [dict] reads the
    parameters and buffers of the module it runs for; [torch.cat] and
    [torch.argmax] may reject what they are given.  [cuda_init] is what the
    first use of the device ['cuda'] gives on the host the program runs on:
    nothing where a CUDA device is there, the framework's exception where
    it is not. *)
Class Torch : Type := {
  Data : Type;
  Scalar : Type;
  Rng : Type;
  Weights : Type;
  conv2d_k : dict (tensor Data) -> nat -> nat -> Data -> Data;
  batch_norm_k : dict (tensor Data) -> Data -> Data;
  relu_k : Data -> Data;
  add_k : Data -> Data -> Data;
  avg_pool2d_k : nat -> nat -> Data -> Data;
  linear_k : dict (tensor Data) -> Data -> Data;
  div_k : Data -> Scalar -> Data;
  float_lit : Z -> Z -> Scalar;
  randn_k : list nat -> Rng -> Data * Rng;
  mul_k : Scalar -> Data -> Data;
  torch_cat : Weights -> result (tensor Data);
  torch_argmax : Weights -> Z -> result (list Z);
  cuda_init : result unit;
}.

Abbreviation Tensor := (tensor Data).
Abbreviation StateDict := (dict (tensor Data)).

(** Modelled from the spec: the module [utils] of the repository is not part
    of the sources, and the spec names the Gumbel-Softmax sampling without
    describing it.  Both functions are parameters.  [gumbel_like] draws the
    Gumbel noise for a tensor from the random generator; [gumbel_softmax]
    (imported from [gumbel_softmax_v1]) is taken as a function of the
    [logits], the temperature [tau], the dimension [dim] and the noise [g]
    its caller supplies, which may raise.  Whether the sampler of [utils]
    draws noise of its own cannot be read off the sources. *)
Class Utils {T : Torch} : Type := {
  gumbel_like : Tensor -> Rng -> Tensor * Rng;
  gumbel_softmax : Tensor -> Scalar -> Z -> Tensor -> result Weights;
}.

(** ** Layers of [torch.nn]

    Each [forward] takes the layer's own state dictionary and the input.
    Sizes follow the framework's documentation; an input the layer does not
    accept raises. *)

Fixpoint shape_eqb (s1 s2 : list nat) : bool :=
  match s1, s2 with
  | [], [] => true
  | a :: s1', b :: s2' => (a =? b)%nat && shape_eqb s1' s2'
  | _, _ => false
  end.

(** The keys of [sd] under [prefix], with the prefix removed: the state
    dictionary of the child module registered under that name. *)
Definition sub_state_dict {V} (prefix : string) (sd : dict V) : dict V :=
  map (fun kv => (slice_from (String.length prefix) (fst kv), snd kv))
      (filter (fun kv => startswith (fst kv) prefix) sd).

Module Conv2d.
Record t : Type := {
  in_channels : nat;
  out_channels : nat;
  kernel_size : nat;
  stride : nat;
  padding : nat;
}.

Definition out_size (c : t) (h : nat) : nat :=
  (h + 2 * padding c - kernel_size c) / stride c + 1.

(** The maps the layer accepts: [ch] channels of [h] rows and [w]
    columns. *)
Definition accepts (c : t) (ch h w : nat) : bool :=
  (ch =? in_channels c)%nat && (0 <? stride c)%nat
  && (kernel_size c <=? h + 2 * padding c)%nat
  && (kernel_size c <=? w + 2 * padding c)%nat.

Section Forward.
Context {T : Torch}.

(** The input is a batch [n; ch; h; w] or a single unbatched item
    [ch; h; w]. *)
Definition forward (c : t) (sd : StateDict) (x : Tensor) : result Tensor :=
  match shape x with
  | [n; ch; h; w] =>
      if accepts c ch h w
      then Ok {| shape := [n; out_channels c; out_size c h; out_size c w];
                 data := conv2d_k sd (stride c) (padding c) (data x) |}
      else Raise RuntimeError
  | [ch; h; w] =>
      if accepts c ch h w
      then Ok {| shape := [out_channels c; out_size c h; out_size c w];
                 data := conv2d_k sd (stride c) (padding c) (data x) |}
      else Raise RuntimeError
  | _ => Raise RuntimeError
  end.
End Forward.
End Conv2d.

Module BatchNorm2d.
Record t : Type := { num_features : nat }.

Section Forward.
Context {T : Torch}.

(** The layer is in training mode, as its constructor leaves it (nothing in
    the file switches to evaluation): it wants a batch, then more than one
    value for each channel, then its own number of channels. *)
Definition forward (b : t) (sd : StateDict) (x : Tensor) : result Tensor :=
  match shape x with
  | [n; ch; h; w] =>
      if (n * (h * w) =? 1)%nat then Raise ValueError
      else if (ch =? num_features b)%nat
      then Ok {| shape := shape x; data := batch_norm_k sd (data x) |}
      else Raise RuntimeError
  | _ => Raise ValueError
  end.
End Forward.
End BatchNorm2d.

Module AvgPool2d.
Record t : Type := { kernel_size : nat; stride : nat }.

Definition out_size (p : t) (h : nat) : nat :=
  (h - kernel_size p) / stride p + 1.

Section Forward.
Context {T : Torch}.

Definition forward (p : t) (x : Tensor) : result Tensor :=
  match shape x with
  | [n; ch; h; w] =>
      if (0 <? stride p)%nat && (0 <? kernel_size p)%nat
         && (kernel_size p <=? h)%nat && (kernel_size p <=? w)%nat
      then Ok {| shape := [n; ch; out_size p h; out_size p w];
                 data := avg_pool2d_k (kernel_size p) (stride p) (data x) |}
      else Raise RuntimeError
  | [ch; h; w] =>
      if (0 <? stride p)%nat && (0 <? kernel_size p)%nat
         && (kernel_size p <=? h)%nat && (kernel_size p <=? w)%nat
      then Ok {| shape := [ch; out_size p h; out_size p w];
                 data := avg_pool2d_k (kernel_size p) (stride p) (data x) |}
      else Raise RuntimeError
  | _ => Raise RuntimeError
  end.
End Forward.
End AvgPool2d.

Module Linear.
Record t : Type := { in_features : nat; out_features : nat }.

Section Forward.
Context {T : Torch}.

Definition forward (l : t) (sd : StateDict) (x : Tensor) : result Tensor :=
  match rev (shape x) with
  | last :: front =>
      if (last =? in_features l)%nat
      then Ok {| shape := rev (out_features l :: front);
                 data := linear_k sd (data x) |}
      else Raise RuntimeError
  | [] => Raise RuntimeError
  end.
End Forward.
End Linear.

Section Functional.
Context {T : Torch}.

(** [nn.ReLU(inplace=True)]: the result is the argument, overwritten. *)
Definition relu (x : Tensor) : Tensor :=
  {| shape := shape x; data := relu_k (data x) |}.

(** Can a tensor of size [r] be broadcast to the size [o]?  Both sizes are
    given last dimension first. *)
Fixpoint broadcastable_rev (r o : list nat) : bool :=
  match r, o with
  | [], _ => true
  | _ :: _, [] => false
  | a :: r', b :: o' =>
      ((a =? b)%nat || (a =? 1)%nat) && broadcastable_rev r' o'
  end.

(** [out += residual]: in place, so the result has the size of [out]. *)
Definition iadd (out residual : Tensor) : result Tensor :=
  if broadcastable_rev (rev (shape residual)) (rev (shape out))
  then Ok {| shape := shape out; data := add_k (data out) (data residual) |}
  else Raise RuntimeError.

(** [x.view(x.size(0), -1)] *)
Definition view_flat (x : Tensor) : result Tensor :=
  match shape x with
  | [] => Raise IndexError
  | n :: rest =>
      if (n =? 0)%nat then Raise RuntimeError
      else Ok {| shape := [n; fold_right Nat.mul 1%nat rest];
                 data := data x |}
  end.

(** [x / temp] for a Python float [temp]. *)
Definition div_scalar (x : Tensor) (temp : Scalar) : Tensor :=
  {| shape := shape x; data := div_k (data x) temp |}.

(** [x.to('cuda')]: the tensor on the device, with the same size and
    contents, on a host that has one. *)
Definition to_cuda (x : Tensor) : result Tensor :=
  let? _ := cuda_init in Ok x.

(** [module.load_state_dict(d, strict)] for the module whose parameters
    and buffers are the entries of [ps] under [prefix] (the empty prefix
    for the whole model).  Every own entry whose key is in [d] with a
    tensor of the same size receives that tensor; a size mismatch, and
    under [strict] a missing or an unexpected key, is reported after the
    copies have been made. *)
Definition incoming (prefix : string) (d : StateDict) (k : string)
  : option Tensor :=
  if startswith k prefix
  then get (slice_from (String.length prefix) k) d
  else None.

Definition copy_entry (prefix : string) (d : StateDict)
           (kv : string * Tensor) : string * Tensor :=
  match incoming prefix d (fst kv) with
  | Some v' =>
      if shape_eqb (shape v') (shape (snd kv)) then (fst kv, v') else kv
  | None => kv
  end.

Definition copy_params (prefix : string) (d ps : StateDict) : StateDict :=
  map (copy_entry prefix d) ps.

Definition size_mismatch (prefix : string) (d ps : StateDict) : bool :=
  existsb (fun kv =>
             match incoming prefix d (fst kv) with
             | Some v' => negb (shape_eqb (shape v') (shape (snd kv)))
             | None => false
             end) ps.

Definition missing_keys (prefix : string) (d ps : StateDict) : list string :=
  filter (fun k => startswith k prefix
                   && match incoming prefix d k with
                      | Some _ => false
                      | None => true
                      end) (keys ps).

Definition unexpected_keys (prefix : string) (d ps : StateDict)
  : list string :=
  filter (fun k => negb (existsb (String.eqb (prefix ++ k)) (keys ps)))
         (keys d).

Definition load_errors (prefix : string) (d : StateDict) (strict : bool)
           (ps : StateDict) : bool :=
  size_mismatch prefix d ps
  || (strict && negb (match missing_keys prefix d ps, unexpected_keys prefix d ps with
                      | [], [] => true
                      | _, _ => false
                      end)).

Definition load_state_dict (prefix : string) (d : StateDict) (strict : bool)
           (ps : StateDict) : StateDict * result unit :=
  (copy_params prefix d ps,
   if load_errors prefix d strict ps then Raise RuntimeError else Ok tt).

End Functional.

(* ================================================================== *)
(** * [BasicBlock] *)
(* ================================================================== *)

(** 3x3 convolution with padding *)
Definition conv3x3 (in_planes out_planes stride : nat) : Conv2d.t :=
  {| Conv2d.in_channels := in_planes;
     Conv2d.out_channels := out_planes;
     Conv2d.kernel_size := 3;
     Conv2d.stride := stride;
     Conv2d.padding := 1 |}.

Module BasicBlock.

Definition expansion : nat := 1.

(** The value given as [downsample]: the [nn.Sequential] of a convolution
    and a batch normalisation that [_make_layer] builds. *)
Record Downsample : Type := { ds0 : Conv2d.t; ds1 : BatchNorm2d.t }.

Record t : Type := {
  conv1 : Conv2d.t;
  bn1 : BatchNorm2d.t;
  conv2 : Conv2d.t;
  bn2 : BatchNorm2d.t;
  downsample : option Downsample;
  stride : nat;
}.

Definition __init__ (inplanes planes stride : nat)
           (downsample : option Downsample) : t :=
  {| conv1 := conv3x3 inplanes planes stride;
     bn1 := {| BatchNorm2d.num_features := planes |};
     conv2 := conv3x3 planes planes 1;
     bn2 := {| BatchNorm2d.num_features := planes |};
     downsample := downsample;
     stride := stride |}.

Section Forward.
Context {T : Torch}.

Definition downsample_forward (d : Downsample) (sd : StateDict) (x : Tensor)
  : result Tensor :=
  let? y := Conv2d.forward (ds0 d) (sub_state_dict "0." sd) x in
  BatchNorm2d.forward (ds1 d) (sub_state_dict "1." sd) y.

Definition forward (self : t) (sd : StateDict) (x : Tensor) : result Tensor :=
  let residual := x in
  let? out := Conv2d.forward (conv1 self) (sub_state_dict "conv1." sd) x in
  let? out := BatchNorm2d.forward (bn1 self) (sub_state_dict "bn1." sd) out in
  let out := relu out in
  let? out := Conv2d.forward (conv2 self) (sub_state_dict "conv2." sd) out in
  let? out := BatchNorm2d.forward (bn2 self) (sub_state_dict "bn2." sd) out in
  let? residual :=
    match downsample self with
    | Some d => downsample_forward d (sub_state_dict "downsample." sd) x
    | None => Ok residual
    end in
  let? out := iadd out residual in
  let out := relu out in
  Ok out.

End Forward.
End BasicBlock.

(** [nn.Sequential] of blocks: the block at position [i] owns the keys under
    ["i."]. *)
Module Sequential.
Section Forward.
Context {T : Torch}.

Fixpoint forward_from (i : nat) (blocks : list BasicBlock.t) (sd : StateDict)
         (x : Tensor) : result Tensor :=
  match blocks with
  | [] => Ok x
  | b :: blocks' =>
      let? y := BasicBlock.forward
                  b (sub_state_dict (str_of_int (Z.of_nat i) ++ ".") sd) x in
      forward_from (S i) blocks' sd y
  end.

Definition forward (blocks : list BasicBlock.t) (sd : StateDict) (x : Tensor)
  : result Tensor :=
  forward_from 0 blocks sd x.

End Forward.
End Sequential.

(* ================================================================== *)
(** * [Wide_ResNet_Cifar] *)
(* ================================================================== *)

Module Wide_ResNet_Cifar.
Section Model.
Context {T : Torch} {U : Utils}.

(** The attributes of a model object.  [params] is its state dictionary:
    the parameters and buffers of all sub-modules under their dotted names
    (["conv1.weight"], ["layer1.0.bn1.running_mean"], ["fc.bias"], ...).
    [alphas] and [gumbel] are plain tensors, not registered parameters, so
    they are no part of it.  [ops] is read by [load_combination] and
    assigned nowhere in the class: [None] stands for the missing
    attribute. *)
Record t : Type := {
  inplanes : nat;
  conv1 : Conv2d.t;
  bn1 : BatchNorm2d.t;
  layer1 : list BasicBlock.t;
  layer2 : list BasicBlock.t;
  layer3 : list BasicBlock.t;
  avgpool : AvgPool2d.t;
  fc : Linear.t;
  temp : Scalar;
  block_names : list string;
  _tau : Scalar;
  weight_root : option string;
  model_name : string;
  alphas : Tensor;
  gumbel : Tensor;
  ops : option (list Z);
  params : StateDict;
}.

Definition set_params (ps : StateDict) (m : t) : t :=
  {| inplanes := inplanes m; conv1 := conv1 m; bn1 := bn1 m;
     layer1 := layer1 m; layer2 := layer2 m; layer3 := layer3 m;
     avgpool := avgpool m; fc := fc m; temp := temp m;
     block_names := block_names m; _tau := _tau m;
     weight_root := weight_root m; model_name := model_name m;
     alphas := alphas m; gumbel := gumbel m; ops := ops m;
     params := ps |}.

Definition set_weight_root (r : option string) (m : t) : t :=
  {| inplanes := inplanes m; conv1 := conv1 m; bn1 := bn1 m;
     layer1 := layer1 m; layer2 := layer2 m; layer3 := layer3 m;
     avgpool := avgpool m; fc := fc m; temp := temp m;
     block_names := block_names m; _tau := _tau m;
     weight_root := r; model_name := model_name m;
     alphas := alphas m; gumbel := gumbel m; ops := ops m;
     params := params m |}.

(** The child modules registered on the model, by attribute name. *)
Definition modules : list string :=
  ["conv1"; "bn1"; "relu"; "layer1"; "layer2"; "layer3"; "avgpool"; "fc"].

(** ** Construction *)

(** [_make_layer]: [inplanes] is [self.inplanes] before the call, the
    second component of the result its value after. *)
Definition _make_layer (inplanes planes : nat) (blocks : Z) (stride : nat)
  : list BasicBlock.t * nat :=
  let downsample :=
    if negb (stride =? 1)%nat
       || negb (inplanes =? planes * BasicBlock.expansion)%nat
    then Some {| BasicBlock.ds0 :=
                   {| Conv2d.in_channels := inplanes;
                      Conv2d.out_channels := planes * BasicBlock.expansion;
                      Conv2d.kernel_size := 1;
                      Conv2d.stride := stride;
                      Conv2d.padding := 0 |};
                 BasicBlock.ds1 :=
                   {| BatchNorm2d.num_features :=
                        planes * BasicBlock.expansion |} |}
    else None in
  let layers := [BasicBlock.__init__ inplanes planes stride downsample] in
  let inplanes := planes * BasicBlock.expansion in
  (* for _ in range(1, int(blocks)) *)
  let layers :=
    (layers ++ repeat (BasicBlock.__init__ inplanes planes 1 None)
                      (Z.to_nat (blocks - 1)))%list in
  (layers, inplanes).

(** [_initialize_alphas]: the architecture parameters, moved to the CUDA
    device, and, drawn once, the Gumbel noise of the sampler.  Gradients
    are not modelled. *)
Definition _initialize_alphas (rng : Rng) : result (Tensor * Tensor * Rng) :=
  (* number of layers *)
  let k := 4%nat in
  (* number of candidates *)
  let num_ops := 350%nat in
  let (r, rng) := randn_k [k; num_ops] rng in
  let? alphas :=
    to_cuda {| shape := [k; num_ops]; data := mul_k (float_lit 1 (-3)) r |} in
  let (gumbel, rng) := gumbel_like alphas rng in
  Ok (alphas, gumbel, rng).

(** The convolutions among [block.modules()]. *)
Definition block_convs (b : BasicBlock.t) : list Conv2d.t :=
  BasicBlock.conv1 b :: BasicBlock.conv2 b
  :: match BasicBlock.downsample b with
     | Some d => [BasicBlock.ds0 d]
     | None => []
     end.

(** [n = m.kernel_size[0] * m.kernel_size[1] * m.out_channels] of the
    initialisation loop, which divides by it. *)
Definition fan_out (c : Conv2d.t) : nat :=
  Conv2d.kernel_size c * Conv2d.kernel_size c * Conv2d.out_channels c.

(** [__init__] with [block = BasicBlock].  [layers] holds [int(layers[i])];
    [params0] are the parameters and buffers as the layer constructors and
    the initialisation loop leave them. *)
Definition __init__ (layers : list Z) (wfactor num_classes : nat)
           (temp tau : Scalar) (weight_root : option string)
           (params0 : StateDict) (rng : Rng) : result (t * Rng) :=
  let inplanes := 16%nat in
  let? n0 := getitem layers 0 in
  let '(layer1, inplanes) := _make_layer inplanes (16 * wfactor) n0 1 in
  let? n1 := getitem layers 1 in
  let '(layer2, inplanes) := _make_layer inplanes (32 * wfactor) n1 2 in
  let? n2 := getitem layers 2 in
  let '(layer3, inplanes) := _make_layer inplanes (64 * wfactor) n2 2 in
  let conv1 := {| Conv2d.in_channels := 3; Conv2d.out_channels := 16;
                  Conv2d.kernel_size := 3; Conv2d.stride := 1;
                  Conv2d.padding := 1 |} in
  (* for m in self.modules(): ... math.sqrt(2. / n) *)
  let convs := conv1 :: flat_map block_convs (layer1 ++ layer2 ++ layer3)%list in
  if negb (forallb (fun m => (0 <? fan_out m)%nat) convs)
  then Raise ZeroDivisionError
  else
  let? ag := _initialize_alphas rng in
  let '(alphas, gumbel, rng) := ag in
  Ok ({| inplanes := inplanes;
         conv1 := conv1;
         bn1 := {| BatchNorm2d.num_features := 16 |};
         layer1 := layer1; layer2 := layer2; layer3 := layer3;
         avgpool := {| AvgPool2d.kernel_size := 8; AvgPool2d.stride := 1 |};
         fc := {| Linear.in_features := 64 * BasicBlock.expansion * wfactor;
                  Linear.out_features := num_classes |};
         temp := temp;
         block_names := ["layer1"; "layer2"; "layer3"; "fc"];
         _tau := tau;
         weight_root := weight_root;
         model_name := "wide_resnet";
         alphas := alphas; gumbel := gumbel;
         ops := None;
         params := params0 |}, rng).

(** ** Architecture weights *)

(** What [arch_weights] returns: the concatenated tensor under [cat], the
    sampled weights as they are otherwise. *)
Definition arch_ret (cat : bool) : Type := if cat then Tensor else Weights.

Definition arch_weights (self : t) (smooth cat : bool)
  : result (arch_ret cat) :=
  let? weights := gumbel_softmax (alphas self) (_tau self) (-1) (gumbel self) in
  if cat as c return result (arch_ret c)
  then torch_cat weights
  else Ok weights.

Definition arch_parameters (self : t) : list Tensor := [alphas self].

(** ** Forward pass *)

Definition forward (self : t) (x : Tensor) : result Tensor :=
  let sd := params self in
  let? x := Conv2d.forward (conv1 self) (sub_state_dict "conv1." sd) x in
  let? x := BatchNorm2d.forward (bn1 self) (sub_state_dict "bn1." sd) x in
  let x := relu x in
  let? x := Sequential.forward (layer1 self) (sub_state_dict "layer1." sd) x in
  let? x := Sequential.forward (layer2 self) (sub_state_dict "layer2." sd) x in
  let? x := Sequential.forward (layer3 self) (sub_state_dict "layer3." sd) x in
  let? x := AvgPool2d.forward (avgpool self) x in
  let? x := view_flat x in
  let? x := Linear.forward (fc self) (sub_state_dict "fc." sd) x in
  Ok (div_scalar x (temp self)).

(** ** The loading methods

    They run in a world made of the model object, the checkpoint files on
    disk (a file holds a state dictionary; [torch.load] builds a fresh
    [dict] on every call) and the names passed to [torch.load] so far.  A
    method returns the world it leaves behind together with its value or
    the exception it raises: what was changed before a [raise] stays
    changed. *)
Record World : Type := {
  self : t;
  files : string -> option StateDict;
  opened : list string;
}.

Definition M (A : Type) : Type := World -> World * result A.

Definition ret {A} (a : A) : M A := fun w => (w, Ok a).

Definition mbind {A B} (c : M A) (k : A -> M B) : M B :=
  fun w =>
    match c w with
    | (w', Ok a) => k a w'
    | (w', Raise e) => (w', Raise e)
    end.

Local Notation "x <- c ;; k" := (mbind c (fun x => k))
  (at level 61, c at next level, right associativity).
Local Notation "c ;; k" := (mbind c (fun _ => k))
  (at level 61, right associativity).

Definition lift {A} (r : result A) : M A := fun w => (w, r).

Definition gets {A} (f : t -> A) : M A := fun w => (w, Ok (f (self w))).

Definition modify (f : t -> t) : M unit :=
  fun w =>
    ({| self := f (self w); files := files w; opened := opened w |}, Ok tt).

(** [self.ops] *)
Definition get_ops : M (list Z) :=
  fun w =>
    match ops (self w) with
    | Some o => (w, Ok o)
    | None => (w, Raise AttributeError)
    end.

(** [torch.load(str(name))] *)
Definition torch_load (name : string) : M StateDict :=
  fun w =>
    ({| self := self w; files := files w;
        opened := (opened w ++ [name])%list |},
     match files w name with
     | Some d => Ok d
     | None => Raise FileNotFoundError
     end).

(** ["{}/{}_cross_entropy_{}.model".format(root, name, n)] *)
Definition format_name (root : option string) (name : string) (n : Z)
  : string :=
  str_of_opt root ++ "/" ++ name ++ "_cross_entropy_" ++ str_of_int n
  ++ ".model".

(** [self.load_state_dict(d, strict)] *)
Definition self_load_state_dict (d : StateDict) (strict : bool) : M unit :=
  fun w =>
    let (ps, r) := load_state_dict "" d strict (params (self w)) in
    ({| self := set_params ps (self w); files := files w;
        opened := opened w |}, r).

(** [getattr(self, block_name).load_state_dict(d, strict)]: the attribute
    has to be one of the registered child modules, whose parameters are
    the entries of [params] under its name and a dot. *)
Definition getattr_load_state_dict (block_name : string) (d : StateDict)
           (strict : bool) : M unit :=
  fun w =>
    if existsb (String.eqb block_name) modules
    then let (ps, r) :=
           load_state_dict (block_name ++ ".") d strict (params (self w)) in
         ({| self := set_params ps (self w); files := files w;
             opened := opened w |}, r)
    else (w, Raise AttributeError).

(** The renaming of the checkpoint's keys and the load into the sub-block,
    as each of the three methods has it in its loop. *)
Definition block_state_dict (block_name : string) (model_dict : StateDict)
  : StateDict :=
  if String.eqb block_name "fc"
  then let modified_dict := strip_comprehension 3 block_name model_dict in
       update model_dict modified_dict
  else let modified_dict := strip_comprehension 7 block_name model_dict in
       update model_dict modified_dict.

Definition load_block (block_name : string) (model_dict : StateDict)
  : M unit :=
  getattr_load_state_dict block_name (block_state_dict block_name model_dict)
                          false.

Fixpoint for_each {A} (l : list A) (body : A -> M unit) : M unit :=
  match l with
  | [] => ret tt
  | a :: l' => body a ;; for_each l' body
  end.

(** [ops[index]] for a tensor of positions. *)
Fixpoint getitem_tensor (o : list Z) (index : list Z) : result (list Z) :=
  match index with
  | [] => Ok []
  | i :: index' =>
      let? v := getitem o i in
      let? vs := getitem_tensor o index' in
      Ok (v :: vs)
  end.

Definition load_combination (index : list Z) : M (list Z) :=
  root <- gets weight_root ;;
  name <- gets model_name ;;
  let saved_model_name := format_name root name 350 in
  model_dict <- torch_load saved_model_name ;;
  self_load_state_dict model_dict false ;;
  names <- gets block_names ;;
  for_each names (fun block_name =>
    names <- gets block_names ;;
    idx <- lift (Py.index block_name names) ;;
    root <- gets weight_root ;;
    name <- gets model_name ;;
    o <- get_ops ;;
    i <- lift (getitem index (Z.of_nat idx)) ;;
    n <- lift (getitem o i) ;;
    let saved_model_name := format_name root name (n + 1) in
    model_dict <- torch_load saved_model_name ;;
    load_block block_name model_dict) ;;
  o <- get_ops ;;
  lift (getitem_tensor o index).

Definition load_combination_weight (combination : list Z)
           (weight_folder : option string) (model_name_arg : string)
  : M unit :=
  modify (set_weight_root weight_folder) ;;
  root <- gets weight_root ;;
  name <- gets model_name ;;
  let saved_model_name := format_name root name 350 in
  model_dict <- torch_load saved_model_name ;;
  self_load_state_dict model_dict false ;;
  names <- gets block_names ;;
  for_each names (fun block_name =>
    names <- gets block_names ;;
    idx <- lift (Py.index block_name names) ;;
    root <- gets weight_root ;;
    name <- gets model_name ;;
    c <- lift (getitem combination 0) ;;
    let saved_model_name := format_name root name (c + 1) in
    model_dict <- torch_load saved_model_name ;;
    load_block block_name model_dict).

Definition load_gumbel_weight : M (list Z) :=
  s <- gets (fun s => s) ;;
  weights <- lift (arch_weights s false false) ;;
  combination <- lift (torch_argmax weights (-1)) ;;
  root <- gets weight_root ;;
  name <- gets model_name ;;
  c <- lift (getitem combination 0) ;;
  let saved_model_name := format_name root name (c + 1) in
  model_dict <- torch_load saved_model_name ;;
  self_load_state_dict model_dict true ;;
  names <- gets block_names ;;
  for_each names (fun block_name =>
    names <- gets block_names ;;
    idx <- lift (Py.index block_name names) ;;
    root <- gets weight_root ;;
    name <- gets model_name ;;
    c <- lift (getitem combination (Z.of_nat idx)) ;;
    let saved_model_name := format_name root name (c + 1) in
    model_dict <- torch_load saved_model_name ;;
    load_block block_name model_dict) ;;
  ret combination.

End Model.
End Wide_ResNet_Cifar.

(** [wide_resnet_cifar]: [n = (depth - 2) / 6] is exact once the assertion
    has passed. *)
Definition wide_resnet_cifar {T : Torch} {U : Utils}
           (temp : Scalar) (num_classes : nat) (depth : Z) (width : nat)
           (tau : Scalar) (weight_root : option string)
           (params0 : StateDict) (rng : Rng)
  : result (Wide_ResNet_Cifar.t * Rng) :=
  if ((depth - 2) mod 6 =? 0)%Z
  then let n := ((depth - 2) / 6)%Z in
       Wide_ResNet_Cifar.__init__ [n; n; n] width num_classes temp tau
                                  weight_root params0 rng
  else Raise AssertionError.

(* ================================================================== *)
(** * A small instance to run the model on *)
(* ================================================================== *)

Module Toy.

(** Position of the first greatest entry of a row. *)
Fixpoint argmax_from (best_i : Z) (best : Z) (i : Z) (row : list Z) : Z :=
  match row with
  | [] => best_i
  | v :: row' =>
      if (best <? v)%Z then argmax_from i v (i + 1) row'
      else argmax_from best_i best (i + 1) row'
  end.

Definition argmax_row (row : list Z) : Z :=
  match row with
  | [] => 0
  | v :: row' => argmax_from 0 v 1 row'
  end.

(** Row [i] of the generated matrix has its only positive entry at
    position [2 * i + rng]. *)
Definition gen_row (cols : nat) (rng : Z) (i : nat) : list Z :=
  map (fun j => if (Z.of_nat j =? 2 * Z.of_nat i + rng)%Z then 5%Z else 0%Z)
      (seq 0 cols).

Definition gen (sh : list nat) (rng : Z) : list (list Z) :=
  match sh with
  | [rows; cols] => map (gen_row cols rng) (seq 0 rows)
  | _ => []
  end.

Definition add_rows (a b : list (list Z)) : list (list Z) :=
  map (fun rs => map (fun vs => (fst vs + snd vs)%Z) (combine (fst rs) (snd rs)))
      (combine a b).

#[local] Instance torch : Torch := {|
  Data := list (list Z);
  Scalar := Z;
  Rng := Z;
  Weights := list (list Z);
  conv2d_k := fun sd _ _ d => [Z.of_nat (length sd)] :: d;
  batch_norm_k := fun sd d => [Z.of_nat (length sd)] :: d;
  relu_k := fun d => d;
  add_k := fun a b => (a ++ b)%list;
  avg_pool2d_k := fun _ _ d => d;
  linear_k := fun sd d => [Z.of_nat (length sd)] :: d;
  div_k := fun d s => [s] :: d;
  float_lit := fun m _ => m;
  randn_k := fun sh rng => (gen sh rng, (rng + 1)%Z);
  mul_k := fun _ d => d;
  torch_cat := fun w => Ok {| shape := [length (concat w)]; data := [concat w] |};
  torch_argmax := fun w _ => Ok (map argmax_row w);
  cuda_init := Ok tt;
|}.

#[local] Instance utils : Utils := {|
  gumbel_like := fun t rng =>
    ({| shape := shape t; data := map (map (fun _ => 0%Z)) (data t) |},
     (rng + 1)%Z);
  gumbel_softmax := fun logits _ _ g => Ok (add_rows (data logits) (data g));
|}.

(** A tensor of the given size holding one number. *)
Definition tn (sh : list nat) (v : Z) : Tensor :=
  {| shape := sh; data := [[v]] |}.

(** Parameters of a model [wide_resnet_cifar(depth=8, width=1)], a few keys
    of each part. *)
Definition params0 : StateDict :=
  [("conv1.weight", tn [16; 3; 3; 3] 0);
   ("bn1.weight", tn [16] 0);
   ("layer1.0.conv1.weight", tn [16; 16; 3; 3] 0);
   ("layer2.0.conv1.weight", tn [32; 16; 3; 3] 0);
   ("layer3.0.conv1.weight", tn [64; 32; 3; 3] 0);
   ("fc.weight", tn [10; 64] 0);
   ("fc.bias", tn [10] 0)].

(** The checkpoint written after epoch [n]: the same keys, every tensor
    holding [n]. *)
Definition checkpoint (n : Z) : StateDict :=
  map (fun kv => (fst kv, tn (shape (snd kv)) n)) params0.

Definition folder : string := "ckpt".

Definition disk (name : string) : option StateDict :=
  get name
      (map (fun n => (Wide_ResNet_Cifar.format_name (Some folder) "wide_resnet" n,
                      checkpoint n))
           [1; 2; 3; 4; 5; 6; 7; 350]%Z).

(** The architecture parameters and the noise drawn from the generator
    state [0]. *)
Definition alphas0 : Tensor :=
  {| shape := [4; 350]%nat; data := gen [4; 350]%nat 0 |}.

Definition gumbel0 : Tensor := fst (gumbel_like alphas0 1%Z).

(** The model [wide_resnet_cifar(depth=8, width=1, weight_root="ckpt")]
    builds from these parameters and the generator state [0]. *)
Definition model : Wide_ResNet_Cifar.t :=
  let l1 := Wide_ResNet_Cifar._make_layer 16 16 1 1 in
  let l2 := Wide_ResNet_Cifar._make_layer (snd l1) 32 1 2 in
  let l3 := Wide_ResNet_Cifar._make_layer (snd l2) 64 1 2 in
  {| Wide_ResNet_Cifar.inplanes := snd l3;
     Wide_ResNet_Cifar.conv1 := conv3x3 3 16 1;
     Wide_ResNet_Cifar.bn1 := {| BatchNorm2d.num_features := 16 |};
     Wide_ResNet_Cifar.layer1 := fst l1;
     Wide_ResNet_Cifar.layer2 := fst l2;
     Wide_ResNet_Cifar.layer3 := fst l3;
     Wide_ResNet_Cifar.avgpool :=
       {| AvgPool2d.kernel_size := 8; AvgPool2d.stride := 1 |};
     Wide_ResNet_Cifar.fc :=
       {| Linear.in_features := 64; Linear.out_features := 10 |};
     Wide_ResNet_Cifar.temp := 1%Z;
     Wide_ResNet_Cifar.block_names := ["layer1"; "layer2"; "layer3"; "fc"];
     Wide_ResNet_Cifar._tau := 1%Z;
     Wide_ResNet_Cifar.weight_root := Some folder;
     Wide_ResNet_Cifar.model_name := "wide_resnet";
     Wide_ResNet_Cifar.alphas := alphas0;
     Wide_ResNet_Cifar.gumbel := gumbel0;
     Wide_ResNet_Cifar.ops := None;
     Wide_ResNet_Cifar.params := params0 |}.

(** A dictionary with two keys under ["fc"] that agree from their fourth
    character on. *)
Definition colliding : StateDict :=
  [("fc.w", tn [1] 1); ("fc_w", tn [1] 2)].

Definition world : Wide_ResNet_Cifar.World :=
  {| Wide_ResNet_Cifar.self := model;
     Wide_ResNet_Cifar.files := disk;
     Wide_ResNet_Cifar.opened := [] |}.



End Toy.

(* ================================================================== *)
(** * Functions used to state the properties *)
(* ================================================================== *)

Section SpecDefs.
Context {V : Type}.
Implicit Types (d : dict V) (k p : string).

(** The entries a comprehension [{k[n:]: v for ... if k.startswith(p)}]
    goes through, in order. *)
Definition renamed (n : nat) p d : list (string * V) :=
  map (fun kv => (slice_from n (fst kv), snd kv))
      (filter (fun kv => startswith (fst kv) p) d).

(** The value of the last entry of [d] whose key starts with [p] and is
    [k'] once its first [n] characters are dropped. *)
Fixpoint last_renamed (n : nat) p (k' : string) d : option V :=
  match d with
  | [] => None
  | (k, v) :: d' =>
      match last_renamed n p k' d' with
      | Some v' => Some v'
      | None =>
          if startswith k p && String.eqb (slice_from n k) k'
          then Some v else None
      end
  end.

End SpecDefs.

(** The names and sizes of the entries of a state dictionary. *)
Definition signature {T : Torch} (ps : StateDict) : list (string * list nat) :=
  map (fun kv => (fst kv, shape (snd kv))) ps.

(** No key starts with both prefixes. *)
Definition disjoint_prefixes (p q : string) : Prop :=
  forall k, startswith k p = true -> startswith k q = false.

Section LoaderSpecDefs.
Context {T : Torch} {U : Utils}.
Import Wide_ResNet_Cifar.

Local Notation "x <- c ;; k" := (mbind c (fun x => k))
  (at level 61, c at next level, right associativity).

(** One round of the loop the three loading methods share; [num] is the
    checkpoint number the method computes for the block at position
    [idx]. *)
Definition block_round (num : t -> nat -> result Z) (block_name : string)
  : M unit :=
  names <- gets block_names ;;
  idx <- lift (Py.index block_name names) ;;
  root <- gets weight_root ;;
  name <- gets model_name ;;
  n <- (fun w => (w, num (self w) idx)) ;;
  model_dict <- torch_load (format_name root name n) ;;
  load_block block_name model_dict.

(** [self.ops[index[idx]] + 1] *)
Definition num_ops_index (index : list Z) (s : t) (idx : nat) : result Z :=
  match ops s with
  | None => Raise AttributeError
  | Some o =>
      let? i := getitem index (Z.of_nat idx) in
      let? n := getitem o i in
      Ok (n + 1)%Z
  end.

(** [combination[0] + 1] *)
Definition num_first (combination : list Z) (s : t) (idx : nat) : result Z :=
  let? c := getitem combination 0 in Ok (c + 1)%Z.

(** [combination[idx] + 1] *)
Definition num_at (combination : list Z) (s : t) (idx : nat) : result Z :=
  let? c := getitem combination (Z.of_nat idx) in Ok (c + 1)%Z.

(** [w'] is [w] after some loads: the model differs in its parameters at
    most, their names and sizes are the same, the disk is the same, and
    every name opened since is a checkpoint name under the model's weight
    root and model name. *)
Definition after_loads (w w' : World) : Prop :=
  (exists ps, self w' = set_params ps (self w))
  /\ signature (params (self w')) = signature (params (self w))
  /\ files w' = files w
  /\ exists l, opened w' = (opened w ++ l)%list
               /\ Forall (fun nm => exists n : Z,
                              nm = format_name (weight_root (self w))
                                               (model_name (self w)) n) l.

(** The entry [kv] of the model after the blocks named in [loads] have been
    loaded, each from its own checkpoint dictionary: an entry under a
    block's name takes the tensor of that block's renamed dictionary (when
    it has one of the same size), any other entry stays. *)
Definition final_entry (loads : list (string * StateDict))
           (kv : string * Tensor) : string * Tensor :=
  match find (fun bd => startswith (fst kv) (fst bd ++ ".")) loads with
  | Some bd => copy_entry (fst bd ++ ".") (block_state_dict (fst bd) (snd bd)) kv
  | None => kv
  end.

End LoaderSpecDefs.

(** The name of a checkpoint file under [root]. *)
Definition checkpoint_name (root : option string) (nm : string) : Prop :=
  exists n : Z,
    nm = str_of_opt root ++ "/wide_resnet_cross_entropy_" ++ str_of_int n
         ++ ".model".




(** Size of a spatial dimension after a block of stride [s]. *)
Definition strided (s h : nat) : nat := (h - 1) / s + 1.

(** The part of a model that [forward] reads besides its parameters. *)
Definition architecture_of {T : Torch} {U : Utils} (s : Wide_ResNet_Cifar.t) :=
  (Wide_ResNet_Cifar.conv1 s, Wide_ResNet_Cifar.bn1 s,
   Wide_ResNet_Cifar.layer1 s, Wide_ResNet_Cifar.layer2 s,
   Wide_ResNet_Cifar.layer3 s, Wide_ResNet_Cifar.avgpool s,
   Wide_ResNet_Cifar.fc s, Wide_ResNet_Cifar.temp s).


(** Size of a spatial dimension after [layer1], [layer2] and [layer3]. *)
Definition map_size (h : nat) : nat := strided 2 (strided 2 h).

(* ================================================================== *)
(** * Strings and dictionaries *)
(* ================================================================== *)

Section PyFacts.
Context {V : Type}.
Implicit Types (d : dict V) (k p : string).

Lemma startswith_app p s : startswith (p ++ s) p = true.
Proof.
  unfold startswith. induction p as [|a p IH]; simpl; [destruct s; reflexivity|].
  destruct (ascii_dec a a); [exact IH | congruence].
Qed.

Lemma slice_from_app p s : slice_from (String.length p) (p ++ s) = s.
Proof. induction p as [|a p IH]; simpl; [reflexivity | exact IH]. Qed.

Lemma startswith_split k p :
  startswith k p = true -> k = p ++ slice_from (String.length p) k.
Proof.
  unfold startswith. revert k.
  induction p as [|a p IH]; intros k H.
  - reflexivity.
  - destruct k as [|b k]; simpl in H; [discriminate|].
    destruct (ascii_dec a b) as [->|]; [|discriminate].
    simpl. f_equal. apply IH, H.
Qed.

Lemma get_app k d1 d2 :
  get k (d1 ++ d2)%list = match get k d1 with Some v => Some v | None => get k d2 end.
Proof.
  induction d1 as [|[k0 v0] d1 IH]; simpl; [reflexivity|].
  destruct (String.eqb k0 k); [reflexivity | exact IH].
Qed.

Lemma get_set k v d k' :
  get k' (set k v d) = if String.eqb k k' then Some v else get k' d.
Proof.
  induction d as [|[k0 v0] d IH]; simpl; [reflexivity|].
  destruct (String.eqb_spec k0 k) as [->|Hne]; simpl.
  - destruct (String.eqb k k'); reflexivity.
  - rewrite IH. destruct (String.eqb_spec k0 k') as [->|]; [|reflexivity].
    destruct (String.eqb_spec k k'); [congruence | reflexivity].
Qed.

Lemma get_None_keys k d : get k d = None <-> ~ In k (keys d).
Proof.
  induction d as [|[k0 v0] d IH]; simpl; [tauto|].
  destruct (String.eqb_spec k0 k); [split; [discriminate | tauto]|].
  rewrite IH. tauto.
Qed.

Lemma get_rev_NoDup k d : NoDup (keys d) -> get k (rev d) = get k d.
Proof.
  induction d as [|[k0 v0] d IH]; simpl; intros Hnd; [reflexivity|].
  inversion Hnd as [|? ? Hnotin Hnd']; subst.
  rewrite get_app, (IH Hnd'). simpl.
  destruct (String.eqb_spec k0 k) as [->|].
  - apply get_None_keys in Hnotin. rewrite Hnotin. reflexivity.
  - destruct (get k d); reflexivity.
Qed.

Lemma keys_set k v d :
  keys (set k v d) = if existsb (String.eqb k) (keys d) then keys d
                     else (keys d ++ [k])%list.
Proof.
  induction d as [|[k0 v0] d IH]; simpl; [reflexivity|].
  rewrite (String.eqb_sym k k0).
  destruct (String.eqb k0 k); simpl; [reflexivity|].
  rewrite IH. destruct (existsb (String.eqb k) (keys d)); reflexivity.
Qed.

Lemma NoDup_set k v d : NoDup (keys d) -> NoDup (keys (set k v d)).
Proof.
  intros Hnd. rewrite keys_set.
  destruct (existsb (String.eqb k) (keys d)) eqn:E; [exact Hnd|].
  apply NoDup_app; [exact Hnd | |].
  - constructor; [simpl; tauto | constructor].
  - intros x Hx [<-|[]].
    assert (existsb (String.eqb k) (keys d) = true); [|congruence].
    apply existsb_exists. exists k. split; [exact Hx | apply String.eqb_refl].
Qed.

(** Folding [set] over a list of entries: for each key the last entry
    wins. *)
Lemma get_fold_set k (l : list (string * V)) d :
  get k (fold_left (fun acc kv => set (fst kv) (snd kv) acc) l d)
  = match get k (rev l) with Some v => Some v | None => get k d end.
Proof.
  revert d. induction l as [|[k0 v0] l IH]; intros d; simpl; [reflexivity|].
  rewrite IH, get_app, get_set. simpl. rewrite (String.eqb_sym k0 k).
  destruct (get k (rev l)); [reflexivity|].
  rewrite (String.eqb_sym k k0). destruct (String.eqb k0 k); reflexivity.
Qed.

Lemma NoDup_fold_set (l : list (string * V)) d :
  NoDup (keys d) ->
  NoDup (keys (fold_left (fun acc kv => set (fst kv) (snd kv) acc) l d)).
Proof.
  revert d. induction l as [|kv l IH]; intros d Hnd; simpl; [exact Hnd|].
  apply IH, NoDup_set, Hnd.
Qed.

Lemma strip_comprehension_fold n p d acc :
  fold_left (fun acc kv => if startswith (fst kv) p
                           then set (slice_from n (fst kv)) (snd kv) acc
                           else acc) d acc
  = fold_left (fun acc kv => set (fst kv) (snd kv) acc) (renamed n p d) acc.
Proof.
  revert acc. unfold renamed.
  induction d as [|kv d IH]; intros acc; simpl; [reflexivity|].
  destruct (startswith (fst kv) p); simpl; apply IH.
Qed.

Lemma NoDup_strip_comprehension n p d :
  NoDup (keys (strip_comprehension n p d)).
Proof.
  unfold strip_comprehension. rewrite strip_comprehension_fold.
  apply NoDup_fold_set. constructor.
Qed.

Lemma get_rev_renamed n p k' d :
  get k' (rev (renamed n p d)) = last_renamed n p k' d.
Proof.
  unfold renamed. induction d as [|[k v] d IH]; simpl; [reflexivity|].
  destruct (startswith k p); simpl.
  - rewrite get_app, IH. simpl.
    destruct (last_renamed n p k' d); [reflexivity|].
    destruct (String.eqb (slice_from n k) k'); reflexivity.
  - rewrite IH. destruct (last_renamed n p k' d); reflexivity.
Qed.

Lemma get_strip_comprehension n p d k' :
  get k' (strip_comprehension n p d) = last_renamed n p k' d.
Proof.
  unfold strip_comprehension.
  rewrite strip_comprehension_fold, get_fold_set, get_rev_renamed.
  destruct (last_renamed n p k' d); reflexivity.
Qed.

Lemma get_update d d2 k :
  NoDup (keys d2) ->
  get k (update d d2)
  = match get k d2 with Some v => Some v | None => get k d end.
Proof.
  intros Hnd. unfold update. rewrite get_fold_set, get_rev_NoDup by exact Hnd.
  reflexivity.
Qed.

(** When no two keys under [p] collapse to the same renamed key, the last
    entry is the only one. *)
Lemma last_renamed_unique n p d k v :
  NoDup (keys d) ->
  (forall k2, In k2 (keys d) -> startswith k2 p = true ->
              slice_from n k2 = slice_from n k -> k2 = k) ->
  In (k, v) d -> startswith k p = true ->
  last_renamed n p (slice_from n k) d = Some v.
Proof.
  induction d as [|[k0 v0] d IH]; simpl; intros Hnd Hinj Hin Hp; [contradiction|].
  inversion Hnd as [|? ? Hnotin Hnd']; subst.
  destruct Hin as [Heq|Hin].
  - inversion Heq; subst.
    assert (Hlast : last_renamed n p (slice_from n k) d = None).
    { clear IH Hnd. induction d as [|[k1 v1] d IHd]; simpl; [reflexivity|].
      rewrite IHd.
      - destruct (startswith k1 p) eqn:E1; [|reflexivity].
        destruct (String.eqb_spec (slice_from n k1) (slice_from n k)) as [E2|];
          [|reflexivity].
        exfalso. apply Hnotin. left. apply Hinj; simpl; auto.
      - intros k2 H2. apply Hinj. simpl in *. tauto.
      - simpl in Hnotin. tauto.
      - inversion Hnd'; assumption. }
    rewrite Hlast, Hp, String.eqb_refl. reflexivity.
  - rewrite IH; auto.
Qed.

Lemma last_renamed_In n p k' d v :
  last_renamed n p k' d = Some v ->
  exists k, In (k, v) d /\ startswith k p = true /\ slice_from n k = k'.
Proof.
  induction d as [|[k0 v0] d IH]; simpl; [discriminate|].
  destruct (last_renamed n p k' d) as [v'|].
  - intros H. destruct (IH H) as [k [Hin Hk]]. exists k. tauto.
  - destruct (startswith k0 p) eqn:E; simpl; [|discriminate].
    destruct (String.eqb_spec (slice_from n k0) k'); [|discriminate].
    intros H. inversion H; subst. exists k0. tauto.
Qed.

End PyFacts.

(* ================================================================== *)
(** * [load_state_dict] *)
(* ================================================================== *)

Section LoadFacts.
Context {T : Torch}.
Implicit Types (d ps : StateDict) (k prefix : string).

Lemma shape_eqb_eq s1 s2 : shape_eqb s1 s2 = true <-> s1 = s2.
Proof.
  revert s2. induction s1 as [|a s1 IH]; intros [|b s2]; simpl;
    try (split; [discriminate | congruence]); [tauto|].
  rewrite andb_true_iff, Nat.eqb_eq, IH. split.
  - intros [-> ->]. reflexivity.
  - intros H. inversion H. auto.
Qed.

Lemma copy_entry_fst prefix d kv : fst (copy_entry prefix d kv) = fst kv.
Proof.
  unfold copy_entry. destruct (incoming prefix d (fst kv)); [|reflexivity].
  destruct (shape_eqb _ _); reflexivity.
Qed.

Lemma copy_entry_shape prefix d kv :
  shape (snd (copy_entry prefix d kv)) = shape (snd kv).
Proof.
  unfold copy_entry. destruct (incoming prefix d (fst kv)) as [v'|]; [|reflexivity].
  destruct (shape_eqb _ _) eqn:E; [|reflexivity].
  apply shape_eqb_eq in E. exact E.
Qed.

Lemma copy_entry_other prefix d kv :
  startswith (fst kv) prefix = false -> copy_entry prefix d kv = kv.
Proof. intros H. unfold copy_entry, incoming. rewrite H. reflexivity. Qed.

Lemma keys_copy_params prefix d ps : keys (copy_params prefix d ps) = keys ps.
Proof.
  unfold keys, copy_params. rewrite map_map.
  apply map_ext. intros kv. apply copy_entry_fst.
Qed.

Lemma signature_copy_params prefix d ps :
  signature (copy_params prefix d ps) = signature ps.
Proof.
  unfold signature, copy_params. rewrite map_map.
  apply map_ext. intros kv. rewrite copy_entry_fst, copy_entry_shape. reflexivity.
Qed.




Lemma get_copy_params_other prefix d ps k :
  startswith k prefix = false -> get k (copy_params prefix d ps) = get k ps.
Proof.
  intros Hk. unfold copy_params.
  induction ps as [|[k0 v0] ps IH]; simpl; [reflexivity|].
  destruct (copy_entry prefix d (k0, v0)) as [k1 v1] eqn:E.
  pose proof (copy_entry_fst prefix d (k0, v0)) as Hf. rewrite E in Hf.
  simpl in Hf. subst k1.
  destruct (String.eqb_spec k0 k) as [->|]; [|exact IH].
  rewrite copy_entry_other in E by exact Hk. congruence.
Qed.

Lemma sub_state_dict_copy_params_other p prefix d ps :
  disjoint_prefixes p prefix ->
  sub_state_dict p (copy_params prefix d ps) = sub_state_dict p ps.
Proof.
  intros Hd. unfold sub_state_dict, copy_params.
  induction ps as [|kv ps IH]; simpl; [reflexivity|].
  rewrite copy_entry_fst.
  destruct (startswith (fst kv) p) eqn:E; simpl; rewrite IH; [|reflexivity].
  rewrite copy_entry_other by (apply Hd, E). reflexivity.
Qed.

(** The prefixes under which the stem and the named blocks keep their
    parameters. *)
Lemma part_prefixes_disjoint p q :
  In p ["conv1."; "bn1."; "layer1."; "layer2."; "layer3."; "fc."] ->
  In q ["conv1."; "bn1."; "layer1."; "layer2."; "layer3."; "fc."] ->
  p <> q -> disjoint_prefixes p q.
Proof.
  intros Hp Hq Hne k Hk. apply startswith_split in Hk. rewrite Hk.
  generalize (slice_from (String.length p) k). intros s.
  simpl in Hp, Hq.
  repeat (destruct Hp as [<-|Hp]; [|]); try contradiction;
    repeat (destruct Hq as [<-|Hq]; [|]); try contradiction;
    try congruence; reflexivity.
Qed.

End LoadFacts.

(* ================================================================== *)
(** * The loading methods *)
(* ================================================================== *)

Section LoaderFacts.
Context {T : Torch} {U : Utils}.
Import Wide_ResNet_Cifar.

Lemma for_each_ext {A} (l : list A) (f g : A -> M unit) w :
  (forall a w, f a w = g a w) -> for_each l f w = for_each l g w.
Proof.
  intros H. revert w. induction l as [|a l IH]; intros w; simpl; [reflexivity|].
  unfold mbind. rewrite H. destruct (g a w) as [w' [[]|e]]; [apply IH | reflexivity].
Qed.

Lemma after_loads_refl w : after_loads w w.
Proof.
  unfold after_loads. repeat split.
  - exists (params (self w)). destruct (self w). reflexivity.
  - exists []. rewrite app_nil_r. split; [reflexivity | constructor].
Qed.

Lemma after_loads_trans w1 w2 w3 :
  after_loads w1 w2 -> after_loads w2 w3 -> after_loads w1 w3.
Proof.
  intros [[ps1 H1] [S1 [F1 [l1 [O1 P1]]]]] [[ps2 H2] [S2 [F2 [l2 [O2 P2]]]]].
  unfold after_loads. repeat split.
  - exists ps2. rewrite H2, H1. reflexivity.
  - congruence.
  - congruence.
  - exists (l1 ++ l2)%list. split.
    + rewrite O2, O1, app_assoc. reflexivity.
    + apply Forall_app. split; [exact P1|].
      rewrite H1 in P2. exact P2.
Qed.

Lemma after_loads_torch_load nm w :
  (exists n, nm = format_name (weight_root (self w)) (model_name (self w)) n) ->
  after_loads w (fst (torch_load nm w)).
Proof.
  intros Hn. unfold after_loads, torch_load. simpl. repeat split.
  - exists (params (self w)). destruct (self w). reflexivity.
  - exists [nm]. split; [reflexivity | constructor; [exact Hn | constructor]].
Qed.

Lemma after_loads_copy prefix d w :
  after_loads
    w {| self := set_params (copy_params prefix d (params (self w))) (self w);
         files := files w; opened := opened w |}.
Proof.
  unfold after_loads. simpl. repeat split.
  - eexists. reflexivity.
  - apply signature_copy_params.
  - exists []. rewrite app_nil_r. split; [reflexivity | constructor].
Qed.

Lemma after_loads_self_load d strict w :
  after_loads w (fst (self_load_state_dict d strict w)).
Proof. unfold self_load_state_dict. simpl. apply (after_loads_copy "" d). Qed.

Lemma after_loads_load_block b d w :
  after_loads w (fst (load_block b d w)).
Proof.
  unfold load_block, getattr_load_state_dict.
  destruct (existsb (String.eqb b) modules); simpl.
  - apply (after_loads_copy (b ++ ".")).
  - apply after_loads_refl.
Qed.

Lemma after_loads_block_round num b w :
  after_loads w (fst (block_round num b w)).
Proof.
  unfold block_round, mbind, gets, lift. 
  destruct (Py.index b (block_names (self w))) as [idx|e]; [|apply after_loads_refl].
  destruct (num (self w) idx) as [n|e]; [|apply after_loads_refl].
  pose proof (after_loads_torch_load
                (format_name (weight_root (self w)) (model_name (self w)) n) w
                (ex_intro _ n eq_refl)) as H1.
  destruct (torch_load _ w) as [w1 [d|e]]; simpl in H1; [|exact H1].
  eapply after_loads_trans; [exact H1 | apply after_loads_load_block].
Qed.

Lemma after_loads_for_each {A} (l : list A) (body : A -> M unit) w :
  (forall a w, after_loads w (fst (body a w))) ->
  after_loads w (fst (for_each l body w)).
Proof.
  intros H. revert w. induction l as [|a l IH]; intros w; simpl.
  - apply after_loads_refl.
  - unfold mbind. pose proof (H a w) as Ha.
    destruct (body a w) as [w1 [[]|e]]; simpl in Ha; [|exact Ha].
    eapply after_loads_trans; [exact Ha | apply IH].
Qed.


(** *** One round, and the four rounds, when every step succeeds *)







Lemma final_entry_outside (loads : list (string * StateDict)) kv :
  (forall bd, In bd loads -> startswith (fst kv) (fst bd ++ ".") = false) ->
  final_entry loads kv = kv.
Proof.
  intros H. unfold final_entry.
  destruct (find _ loads) as [bd|] eqn:E; [|reflexivity].
  apply find_some in E. destruct E as [Hin Hs].
  rewrite (H bd Hin) in Hs. discriminate.
Qed.


(** *** The loop of each method is the shared round *)


End LoaderFacts.

(* ================================================================== *)
(** * Architecture weights *)
(* ================================================================== *)

Section ArchWeights.
Context {T : Torch} {U : Utils}.
Import Wide_ResNet_Cifar.

(** C1. For every model state, [arch_weights] computes
    [gumbel_softmax(self.alphas, tau=self._tau, dim=-1, g=self.gumbel)];
    called with [cat=True] it returns [torch.cat] of these weights, with
    [cat=False] the weights themselves. *)
Theorem arch_weights_gumbel_softmax (self : t) (smooth : bool) :
  arch_weights self smooth true
  = (let? weights :=
       gumbel_softmax (alphas self) (_tau self) (-1) (gumbel self) in
     torch_cat weights)
  /\ arch_weights self smooth false
     = gumbel_softmax (alphas self) (_tau self) (-1) (gumbel self).
Proof.
  unfold arch_weights. split; [reflexivity|].
  destruct (gumbel_softmax _ _ _ _); reflexivity.
Qed.

(** When [_initialize_alphas] returns, the architecture parameters are a
    4 x 350 tensor and the noise is what [gumbel_like] draws for them, once,
    after [torch.randn]; without a CUDA device it raises what the framework
    raises. *)
Lemma initialize_alphas_noise (rng : Rng) :
  match _initialize_alphas rng with
  | Ok (a, g, rng') =>
      cuda_init = Ok tt
      /\ shape a = [4; 350]%nat
      /\ (g, rng') = gumbel_like a (snd (randn_k [4; 350]%nat rng))
  | Raise e => cuda_init = Raise e
  end.
Proof.
  unfold _initialize_alphas, to_cuda.
  destruct (randn_k [4; 350]%nat rng) as [r rng1].
  destruct cuda_init as [[]|e]; cbn [Py.bind snd]; [|reflexivity].
  destruct (gumbel_like _ rng1) as [g rng2] eqn:E.
  split; [reflexivity|]. split; [reflexivity | symmetry; exact E].
Qed.

End ArchWeights.

(* ================================================================== *)
(** * Renaming of the checkpoint keys and its frame *)
(* ================================================================== *)

Section Renaming.
Context {T : Torch} {U : Utils}.
Import Wide_ResNet_Cifar.

Lemma block_name_cases (b : string) :
  In b ["layer1"; "layer2"; "layer3"; "fc"] ->
  b = "layer1" \/ b = "layer2" \/ b = "layer3" \/ b = "fc".
Proof. simpl. intuition. Qed.

(** C5, as the code has it.  For a block name [b] of the list and a
    checkpoint dictionary [d], the renamed dictionary is the comprehension
    that drops [len(b) + 1] characters; a renamed key holds the value of the
    last entry of [d] that starts with [b] and is renamed to it, so it holds
    exactly the entries under [b] when no two of them are renamed alike;
    every entry of it comes from such an entry of [d], value unchanged; the
    renamed entries are merged into [d], winning over an equal key, and the
    merged dictionary is what the sub-block loads. *)
Theorem block_state_dict_renaming (b : string) (d : StateDict) :
  In b ["layer1"; "layer2"; "layer3"; "fc"] ->
  let n := S (String.length b) in
  let modified_dict := strip_comprehension n b d in
  block_state_dict b d = update d modified_dict
  /\ (forall k', get k' modified_dict = last_renamed n b k' d)
  /\ (forall k v,
        NoDup (keys d) ->
        (forall k2, In k2 (keys d) -> startswith k2 b = true ->
                    slice_from n k2 = slice_from n k -> k2 = k) ->
        In (k, v) d -> startswith k b = true ->
        get (slice_from n k) modified_dict = Some v)
  /\ (forall k' v,
        get k' modified_dict = Some v ->
        exists k, In (k, v) d /\ startswith k b = true /\ slice_from n k = k')
  /\ (forall k',
        get k' (block_state_dict b d)
        = match get k' modified_dict with
          | Some v => Some v
          | None => get k' d
          end)
  /\ (forall w,
        load_block b d w
        = getattr_load_state_dict b (update d modified_dict) false w).
Proof.
  intros Hb n modified_dict.
  assert (Hbsd : block_state_dict b d = update d modified_dict).
  { apply block_name_cases in Hb.
    destruct Hb as [-> | [-> | [-> | ->]]]; reflexivity. }
  split; [exact Hbsd|].
  split; [intros k'; apply get_strip_comprehension|].
  split.
  { intros k v Hnd Hinj Hin Hk. unfold modified_dict.
    rewrite get_strip_comprehension. apply last_renamed_unique; assumption. }
  split.
  { intros k' v H. unfold modified_dict in H.
    rewrite get_strip_comprehension in H. apply last_renamed_In in H. exact H. }
  split.
  { intros k'. rewrite Hbsd. apply get_update, NoDup_strip_comprehension. }
  intros w. unfold load_block. rewrite Hbsd. reflexivity.
Qed.

(** C8. A per-block [load_state_dict] call changes parameters and buffers
    of the named sub-block only: the state dictionaries of [conv1], of [bn1]
    and of the other named blocks, [alphas], [gumbel] and every other
    attribute are as before, raise or not. *)
Theorem load_block_frame (b : string) (d : StateDict) (w : World) :
  In b ["layer1"; "layer2"; "layer3"; "fc"] ->
  let w' := fst (load_block b d w) in
  sub_state_dict "conv1." (params (self w'))
  = sub_state_dict "conv1." (params (self w))
  /\ sub_state_dict "bn1." (params (self w'))
     = sub_state_dict "bn1." (params (self w))
  /\ (forall b', In b' ["layer1"; "layer2"; "layer3"; "fc"] -> b' <> b ->
                 sub_state_dict (b' ++ ".") (params (self w'))
                 = sub_state_dict (b' ++ ".") (params (self w)))
  /\ (forall k, startswith k (b ++ ".") = false ->
                get k (params (self w')) = get k (params (self w)))
  /\ keys (params (self w')) = keys (params (self w))
  /\ alphas (self w') = alphas (self w)
  /\ gumbel (self w') = gumbel (self w)
  /\ self w' = set_params (params (self w')) (self w).
Proof.
  intros Hb w'.
  assert (Hm : existsb (String.eqb b) modules = true).
  { apply block_name_cases in Hb.
    destruct Hb as [-> | [-> | [-> | ->]]]; reflexivity. }
  assert (Hw' : w' = {| self := set_params
                                  (copy_params (b ++ ".") (block_state_dict b d)
                                               (params (self w))) (self w);
                        files := files w; opened := opened w |}).
  { unfold w', load_block, getattr_load_state_dict. rewrite Hm. reflexivity. }
  rewrite Hw'. cbn [self params set_params alphas gumbel].
  assert (Hin : In (b ++ ".")
                   ["conv1."; "bn1."; "layer1."; "layer2."; "layer3."; "fc."]).
  { apply block_name_cases in Hb.
    destruct Hb as [-> | [-> | [-> | ->]]]; simpl; tauto. }
  repeat split.
  - apply sub_state_dict_copy_params_other, part_prefixes_disjoint;
      [simpl; tauto | exact Hin |].
    apply block_name_cases in Hb.
    destruct Hb as [-> | [-> | [-> | ->]]]; discriminate.
  - apply sub_state_dict_copy_params_other, part_prefixes_disjoint;
      [simpl; tauto | exact Hin |].
    apply block_name_cases in Hb.
    destruct Hb as [-> | [-> | [-> | ->]]]; discriminate.
  - intros b' Hb' Hne.
    apply sub_state_dict_copy_params_other, part_prefixes_disjoint;
      [| exact Hin |].
    + apply block_name_cases in Hb'.
      destruct Hb' as [-> | [-> | [-> | ->]]]; simpl; tauto.
    + intros Heq. apply Hne.
      apply block_name_cases in Hb, Hb'.
      destruct Hb as [-> | [-> | [-> | ->]]];
        destruct Hb' as [-> | [-> | [-> | ->]]];
        try reflexivity; discriminate.
  - intros k Hk. apply get_copy_params_other, Hk.
  - apply keys_copy_params.
Qed.

End Renaming.

(* ================================================================== *)
(** * Checkpoint files *)
(* ================================================================== *)

Section Checkpoints.
Context {T : Torch} {U : Utils}.
Import Wide_ResNet_Cifar.

Lemma round_ops_index index b w :
  mbind (gets block_names) (fun names =>
  mbind (lift (Py.index b names)) (fun idx =>
  mbind (gets weight_root) (fun root =>
  mbind (gets model_name) (fun name =>
  mbind get_ops (fun o =>
  mbind (lift (getitem index (Z.of_nat idx))) (fun i =>
  mbind (lift (getitem o i)) (fun n =>
  mbind (torch_load (format_name root name (n + 1))) (fun model_dict =>
  load_block b model_dict)))))))) w
  = block_round (num_ops_index index) b w.
Proof.
  unfold block_round, num_ops_index, mbind, gets, lift, get_ops.
  destruct (Py.index b (block_names (self w))) as [idx|e]; [|reflexivity].
  destruct (ops (self w)) as [o|]; [|reflexivity].
  destruct (getitem index (Z.of_nat idx)) as [i|e]; [|reflexivity]. simpl.
  destruct (getitem o i) as [n|e]; reflexivity.
Qed.

Lemma round_first combination b w :
  mbind (gets block_names) (fun names =>
  mbind (lift (Py.index b names)) (fun idx =>
  mbind (gets weight_root) (fun root =>
  mbind (gets model_name) (fun name =>
  mbind (lift (getitem combination 0)) (fun c =>
  mbind (torch_load (format_name root name (c + 1))) (fun model_dict =>
  load_block b model_dict)))))) w
  = block_round (num_first combination) b w.
Proof.
  unfold block_round, num_first, mbind, gets, lift.
  destruct (Py.index b (block_names (self w))) as [idx|e]; [|reflexivity].
  destruct (getitem combination 0) as [c|e]; reflexivity.
Qed.

Lemma round_at combination b w :
  mbind (gets block_names) (fun names =>
  mbind (lift (Py.index b names)) (fun idx =>
  mbind (gets weight_root) (fun root =>
  mbind (gets model_name) (fun name =>
  mbind (lift (getitem combination (Z.of_nat idx))) (fun c =>
  mbind (torch_load (format_name root name (c + 1))) (fun model_dict =>
  load_block b model_dict)))))) w
  = block_round (num_at combination) b w.
Proof.
  unfold block_round, num_at, mbind, gets, lift.
  destruct (Py.index b (block_names (self w))) as [idx|e]; [|reflexivity].
  destruct (getitem combination (Z.of_nat idx)) as [c|e]; reflexivity.
Qed.

Lemma mbind_gets {A B} (f : t -> A) (k : A -> M B) w :
  mbind (gets f) k w = k (f (self w)) w.
Proof. reflexivity. Qed.

Lemma mbind_ext {A B} (c : M A) (k1 k2 : A -> M B) w :
  (forall a w', k1 a w' = k2 a w') -> mbind c k1 w = mbind c k2 w.
Proof.
  intros H. unfold mbind. destruct (c w) as [w' [a|e]]; [apply H | reflexivity].
Qed.

Lemma mbind_ext_l {A B} (c1 c2 : M A) (k : A -> M B) w :
  c1 w = c2 w -> mbind c1 k w = mbind c2 k w.
Proof. intros H. unfold mbind. rewrite H. reflexivity. Qed.

(** Each method is its first load followed by the four rounds. *)
Lemma load_combination_rounds index w :
  load_combination index w
  = mbind (torch_load (format_name (weight_root (self w))
                                   (model_name (self w)) 350))
      (fun model_dict =>
       mbind (self_load_state_dict model_dict false) (fun _ =>
       mbind (gets block_names) (fun names =>
       mbind (for_each names (block_round (num_ops_index index))) (fun _ =>
       mbind get_ops (fun o => lift (getitem_tensor o index)))))) w.
Proof.
  unfold load_combination. rewrite !mbind_gets.
  apply mbind_ext. intros d w1. apply mbind_ext. intros _ w2.
  apply mbind_ext. intros names w3. apply mbind_ext_l.
  apply for_each_ext. intros b w4. apply round_ops_index.
Qed.

Lemma load_combination_weight_rounds combination weight_folder mn w :
  load_combination_weight combination weight_folder mn w
  = mbind (torch_load (format_name weight_folder (model_name (self w)) 350))
      (fun model_dict =>
       mbind (self_load_state_dict model_dict false) (fun _ =>
       mbind (gets block_names) (fun names =>
       for_each names (block_round (num_first combination)))))
      {| self := set_weight_root weight_folder (self w);
         files := files w; opened := opened w |}.
Proof.
  unfold load_combination_weight.
  unfold mbind at 1. unfold modify. cbv beta iota.
  rewrite !mbind_gets. cbn [self weight_root model_name set_weight_root].
  apply mbind_ext. intros d w1. apply mbind_ext. intros _ w2.
  apply mbind_ext. intros names w3.
  apply for_each_ext. intros b w4. apply round_first.
Qed.

Lemma load_gumbel_weight_rounds w weights combination c :
  arch_weights (self w) false false = Ok weights ->
  torch_argmax weights (-1) = Ok combination ->
  getitem combination 0 = Ok c ->
  load_gumbel_weight w
  = mbind (torch_load (format_name (weight_root (self w))
                                   (model_name (self w)) (c + 1)))
      (fun model_dict =>
       mbind (self_load_state_dict model_dict true) (fun _ =>
       mbind (gets block_names) (fun names =>
       mbind (for_each names (block_round (num_at combination))) (fun _ =>
       ret combination)))) w.
Proof.
  intros Hw Ha Hc. unfold load_gumbel_weight. rewrite mbind_gets.
  unfold mbind at 1. unfold lift at 1. rewrite Hw.
  unfold mbind at 1. unfold lift at 1. rewrite Ha.
  rewrite !mbind_gets.
  unfold mbind at 1. unfold lift at 1. rewrite Hc.
  apply mbind_ext. intros d w1. apply mbind_ext. intros _ w2.
  apply mbind_ext. intros names w3. apply mbind_ext_l.
  apply for_each_ext. intros b w4. apply round_at.
Qed.

Lemma after_loads_rounds d strict num w :
  after_loads
    w (fst (mbind (self_load_state_dict d strict) (fun _ =>
            mbind (gets block_names) (fun names =>
            for_each names (block_round num))) w)).
Proof.
  unfold mbind at 1.
  pose proof (after_loads_self_load d strict w) as H1.
  destruct (self_load_state_dict d strict w) as [w1 [[]|e]]; simpl in H1;
    [|exact H1].
  rewrite mbind_gets.
  eapply after_loads_trans; [exact H1|].
  apply after_loads_for_each. intros b w2. apply after_loads_block_round.
Qed.

Lemma after_loads_rounds_then {A} d strict num (k : M A) w :
  (forall w', fst (k w') = w') ->
  after_loads
    w (fst (mbind (self_load_state_dict d strict) (fun _ =>
            mbind (gets block_names) (fun names =>
            mbind (for_each names (block_round num)) (fun _ => k))) w)).
Proof.
  intros Hk. unfold mbind at 1.
  pose proof (after_loads_self_load d strict w) as H1.
  destruct (self_load_state_dict d strict w) as [w1 [[]|e]]; simpl in H1;
    [|exact H1].
  rewrite mbind_gets. unfold mbind.
  pose proof (after_loads_for_each (block_names (self w1)) (block_round num) w1
                (after_loads_block_round num)) as H2.
  destruct (for_each _ _ w1) as [w2 [[]|e]]; simpl in H2.
  - rewrite Hk. eapply after_loads_trans; eassumption.
  - eapply after_loads_trans; eassumption.
Qed.

Lemma format_name_checkpoint root n :
  checkpoint_name root (format_name root "wide_resnet" n).
Proof. exists n. reflexivity. Qed.

Lemma after_loads_names w w' :
  model_name (self w) = "wide_resnet" ->
  after_loads w w' ->
  exists l, opened w' = (opened w ++ l)%list
            /\ Forall (checkpoint_name (weight_root (self w))) l.
Proof.
  intros Hm [_ [_ [_ [l [Ho Hl]]]]]. exists l. split; [exact Ho|].
  eapply Forall_impl; [|exact Hl].
  intros nm [n ->]. rewrite Hm. apply format_name_checkpoint.
Qed.

(** What a first load of [nm] followed by loads leaves in [opened]. *)
Lemma opened_after_first {A} nm (k : StateDict -> M A) w :
  model_name (self w) = "wide_resnet" ->
  checkpoint_name (weight_root (self w)) nm ->
  (forall d w1, after_loads w1 (fst (k d w1))) ->
  exists l, opened (fst (mbind (torch_load nm) k w))
            = (opened w ++ nm :: l)%list
            /\ Forall (checkpoint_name (weight_root (self w))) (nm :: l).
Proof.
  intros Hm Hnm Hk. unfold mbind, torch_load.
  destruct (files w nm) as [d|].
  - match goal with |- context [k d ?w1] => pose proof (Hk d w1) as H end.
    apply after_loads_names in H; [|exact Hm].
    destruct H as [l [Ho Hl]]. exists l. simpl in *.
    rewrite Ho, <- app_assoc. split; [reflexivity|].
    constructor; assumption.
  - exists []. simpl. split; [reflexivity|]. constructor; [exact Hnm | constructor].
Qed.

(** C9. With the model name set by [__init__], every name passed to
    [torch.load] by the three methods is
    [{weight_root}/wide_resnet_cross_entropy_{n}.model] for an integer [n],
    and the first load of [load_combination] and of
    [load_combination_weight] has [n = 350]. *)
Theorem checkpoint_file_names (w : World) :
  model_name (self w) = "wide_resnet" ->
  (forall index,
      exists l,
        opened (fst (load_combination index w))
        = (opened w
           ++ (str_of_opt (weight_root (self w))
               ++ "/wide_resnet_cross_entropy_350.model")%string :: l)%list
        /\ Forall (checkpoint_name (weight_root (self w))) l)
  /\ (forall combination weight_folder mn,
         exists l,
           opened (fst (load_combination_weight combination weight_folder mn w))
           = (opened w
              ++ (str_of_opt weight_folder
                  ++ "/wide_resnet_cross_entropy_350.model")%string :: l)%list
           /\ Forall (checkpoint_name weight_folder) l)
  /\ (exists l,
         opened (fst (load_gumbel_weight w)) = (opened w ++ l)%list
         /\ Forall (checkpoint_name (weight_root (self w))) l).
Proof.
  intros Hm. split; [|split].
  - intros index. rewrite load_combination_rounds, Hm.
    destruct (opened_after_first
                (format_name (weight_root (self w)) "wide_resnet" 350)
                (fun model_dict =>
                   mbind (self_load_state_dict model_dict false) (fun _ =>
                   mbind (gets block_names) (fun names =>
                   mbind (for_each names (block_round (num_ops_index index)))
                         (fun _ => mbind get_ops
                                     (fun o => lift (getitem_tensor o index))))))
                w Hm (format_name_checkpoint _ _)) as [l [Ho Hl]].
    + intros d w1. apply after_loads_rounds_then.
      intros w'. unfold mbind, get_ops, lift.
      destruct (ops (self w')); reflexivity.
    + exists l. split; [exact Ho|]. inversion Hl; assumption.
  - intros combination weight_folder mn.
    rewrite load_combination_weight_rounds, Hm.
    destruct (opened_after_first
                (format_name weight_folder "wide_resnet" 350)
                (fun model_dict =>
                   mbind (self_load_state_dict model_dict false) (fun _ =>
                   mbind (gets block_names) (fun names =>
                   for_each names (block_round (num_first combination)))))
                {| self := set_weight_root weight_folder (self w);
                   files := files w; opened := opened w |}
                Hm (format_name_checkpoint _ _)) as [l [Ho Hl]].
    + intros d w1. apply after_loads_rounds.
    + exists l. split; [exact Ho|]. inversion Hl; assumption.
  - unfold load_gumbel_weight. rewrite mbind_gets.
    unfold mbind at 1. unfold lift at 1.
    destruct (arch_weights (self w) false false) as [weights|e];
      [|exists []; rewrite app_nil_r; split; [reflexivity | constructor]].
    unfold mbind at 1. unfold lift at 1.
    destruct (torch_argmax weights (-1)) as [combination|e];
      [|exists []; rewrite app_nil_r; split; [reflexivity | constructor]].
    rewrite !mbind_gets. unfold mbind at 1. unfold lift at 1.
    destruct (getitem combination 0) as [c|e];
      [|exists []; rewrite app_nil_r; split; [reflexivity | constructor]].
    rewrite Hm.
    destruct (opened_after_first
                (format_name (weight_root (self w)) "wide_resnet" (c + 1))
                (fun model_dict =>
                   mbind (self_load_state_dict model_dict true) (fun _ =>
                   mbind (gets block_names) (fun names =>
                   mbind (for_each names
                            (fun block_name =>
                               mbind (gets block_names) (fun names0 =>
                               mbind (lift (Py.index block_name names0)) (fun idx =>
                               mbind (gets weight_root) (fun root =>
                               mbind (gets model_name) (fun name =>
                               mbind (lift (getitem combination (Z.of_nat idx)))
                                 (fun c0 =>
                               mbind (torch_load (format_name root name (c0 + 1)))
                                 (fun model_dict0 =>
                               load_block block_name model_dict0))))))))
                         (fun _ => ret combination))))
                w Hm (format_name_checkpoint _ _)) as [l [Ho Hl]].
    + intros d w1.
      pose proof (after_loads_rounds_then d true (num_at combination)
                    (ret combination) w1 (fun w' => eq_refl)) as H.
      match goal with
      | |- after_loads w1 (fst ?x) =>
          replace x with
            (mbind (self_load_state_dict d true) (fun _ =>
             mbind (gets block_names) (fun names =>
             mbind (for_each names (block_round (num_at combination)))
                   (fun _ => ret combination))) w1); [exact H|]
      end.
      apply mbind_ext. intros _ w2. apply mbind_ext. intros names w3.
      apply mbind_ext_l. apply for_each_ext. intros b w4.
      symmetry. apply round_at.
    + exists (format_name (weight_root (self w)) "wide_resnet" (c + 1) :: l).
      split; [exact Ho | exact Hl].
Qed.

End Checkpoints.

(* ================================================================== *)
(** * What the loading methods load *)
(* ================================================================== *)

Section Loading.
Context {T : Torch} {U : Utils}.
Import Wide_ResNet_Cifar.

Lemma set_weight_root_same s : set_weight_root (weight_root s) s = s.
Proof. destruct s. reflexivity. Qed.







(** Loads leave what [arch_weights] reads as it is. *)
Lemma arch_weights_after_loads w w' smooth cat :
  after_loads w w' ->
  arch_weights (self w') smooth cat = arch_weights (self w) smooth cat.
Proof. intros [[ps ->] _]. reflexivity. Qed.

End Loading.

(* ================================================================== *)
(** * Forward passes *)
(* ================================================================== *)

Section ForwardFacts.
Context {T : Torch}.

Lemma conv2d_forward_ok (c : Conv2d.t) sd (x : Tensor) n h w :
  shape x = [n; Conv2d.in_channels c; h; w] ->
  (0 < Conv2d.stride c)%nat ->
  (Conv2d.kernel_size c <= h + 2 * Conv2d.padding c)%nat ->
  (Conv2d.kernel_size c <= w + 2 * Conv2d.padding c)%nat ->
  Conv2d.forward c sd x
  = Ok {| shape := [n; Conv2d.out_channels c; Conv2d.out_size c h;
                    Conv2d.out_size c w];
          data := conv2d_k sd (Conv2d.stride c) (Conv2d.padding c) (data x) |}.
Proof.
  intros Hx Hs Hh Hw. unfold Conv2d.forward, Conv2d.accepts. rewrite Hx.
  rewrite Nat.eqb_refl.
  destruct (Nat.ltb_spec 0 (Conv2d.stride c)); [|lia].
  destruct (Nat.leb_spec (Conv2d.kernel_size c) (h + 2 * Conv2d.padding c)); [|lia].
  destruct (Nat.leb_spec (Conv2d.kernel_size c) (w + 2 * Conv2d.padding c)); [|lia].
  reflexivity.
Qed.

Lemma batch_norm_forward_ok (b : BatchNorm2d.t) sd (x : Tensor) n h w :
  shape x = [n; BatchNorm2d.num_features b; h; w] ->
  (n * (h * w) <> 1)%nat ->
  BatchNorm2d.forward b sd x
  = Ok {| shape := shape x; data := batch_norm_k sd (data x) |}.
Proof.
  intros Hx Hc. unfold BatchNorm2d.forward. rewrite Hx.
  destruct (Nat.eqb_spec (n * (h * w)) 1); [contradiction|].
  rewrite Nat.eqb_refl. reflexivity.
Qed.


Lemma broadcastable_rev_refl s : broadcastable_rev s s = true.
Proof. induction s as [|a s IH]; simpl; [reflexivity|]. rewrite Nat.eqb_refl. exact IH. Qed.

Lemma iadd_ok (out residual : Tensor) :
  shape residual = shape out ->
  iadd out residual
  = Ok {| shape := shape out; data := add_k (data out) (data residual) |}.
Proof.
  intros H. unfold iadd. rewrite H, broadcastable_rev_refl. reflexivity.
Qed.

Lemma conv3x3_out_size s h :
  (1 <= h)%nat -> Conv2d.out_size (conv3x3 0 0 s) h = strided s h.
Proof.
  intros Hh. unfold Conv2d.out_size, strided. simpl.
  replace (h + 2 - 3)%nat with (h - 1)%nat by lia. reflexivity.
Qed.

Lemma strided_pos s h : (1 <= strided s h)%nat.
Proof. unfold strided. lia. Qed.

Lemma strided_1 h : (1 <= h)%nat -> strided 1 h = h.
Proof. intros Hh. unfold strided. rewrite Nat.div_1_r. lia. Qed.

(** The main path of a block, up to the residual addition, on a batch with
    the block's number of input channels and more than one value for each
    channel after the first convolution. *)
Lemma basic_block_main_path inplanes planes s ds sd (x : Tensor) n h w :
  (1 <= s)%nat -> (1 <= h)%nat -> (1 <= w)%nat ->
  shape x = [n; inplanes; h; w] ->
  (n * (strided s h * strided s w) <> 1)%nat ->
  exists a b c out,
    Conv2d.forward (conv3x3 inplanes planes s) (sub_state_dict "conv1." sd) x
    = Ok a
    /\ BatchNorm2d.forward {| BatchNorm2d.num_features := planes |}
                           (sub_state_dict "bn1." sd) a = Ok b
    /\ Conv2d.forward (conv3x3 planes planes 1) (sub_state_dict "conv2." sd)
                      (relu b) = Ok c
    /\ BatchNorm2d.forward {| BatchNorm2d.num_features := planes |}
                           (sub_state_dict "bn2." sd) c = Ok out
    /\ shape out = [n; planes; strided s h; strided s w]
    /\ data out
       = batch_norm_k
           (sub_state_dict "bn2." sd)
           (conv2d_k
              (sub_state_dict "conv2." sd) 1 1
              (relu_k
                 (batch_norm_k
                    (sub_state_dict "bn1." sd)
                    (conv2d_k (sub_state_dict "conv1." sd) s 1 (data x)))))
    /\ BasicBlock.forward (BasicBlock.__init__ inplanes planes s ds) sd x
       = (let? r := match ds with
                    | Some d =>
                        BasicBlock.downsample_forward
                          d (sub_state_dict "downsample." sd) x
                    | None => Ok x
                    end in
          let? o := iadd out r in
          Ok (relu o)).
Proof.
  intros Hs Hh Hw Hx Hc.
  pose proof (strided_pos s h) as Hh'. pose proof (strided_pos s w) as Hw'.
  pose proof (conv2d_forward_ok (conv3x3 inplanes planes s)
                (sub_state_dict "conv1." sd) x n h w Hx
                ltac:(simpl; lia) ltac:(simpl; lia) ltac:(simpl; lia)) as Ea.
  change (Conv2d.out_size (conv3x3 inplanes planes s))
    with (Conv2d.out_size (conv3x3 0 0 s)) in Ea.
  rewrite !conv3x3_out_size in Ea by assumption.
  cbn [Conv2d.out_channels conv3x3 Conv2d.stride Conv2d.padding] in Ea.
  match type of Ea with _ = Ok ?a => set (a0 := a) in * end.
  pose proof (batch_norm_forward_ok {| BatchNorm2d.num_features := planes |}
                (sub_state_dict "bn1." sd) a0 n (strided s h) (strided s w)
                eq_refl Hc) as Eb.
  match type of Eb with _ = Ok ?b => set (b0 := b) in * end.
  pose proof (conv2d_forward_ok (conv3x3 planes planes 1)
                (sub_state_dict "conv2." sd) (relu b0) n
                (strided s h) (strided s w) eq_refl
                ltac:(simpl; lia) ltac:(simpl; lia) ltac:(simpl; lia)) as Ec.
  change (Conv2d.out_size (conv3x3 planes planes 1))
    with (Conv2d.out_size (conv3x3 0 0 1)) in Ec.
  rewrite !conv3x3_out_size, !strided_1 in Ec by assumption.
  cbn [Conv2d.out_channels conv3x3 Conv2d.stride Conv2d.padding] in Ec.
  match type of Ec with _ = Ok ?c => set (c0 := c) in * end.
  pose proof (batch_norm_forward_ok {| BatchNorm2d.num_features := planes |}
                (sub_state_dict "bn2." sd) c0 n (strided s h) (strided s w)
                eq_refl Hc) as Eo.
  match type of Eo with _ = Ok ?o => set (o0 := o) in * end.
  exists a0, b0, c0, o0.
  split; [exact Ea|]. split; [exact Eb|]. split; [exact Ec|].
  split; [exact Eo|]. split; [reflexivity|]. split; [reflexivity|].
  unfold BasicBlock.forward.
  change (BasicBlock.conv1 (BasicBlock.__init__ inplanes planes s ds))
    with (conv3x3 inplanes planes s).
  change (BasicBlock.bn1 (BasicBlock.__init__ inplanes planes s ds))
    with {| BatchNorm2d.num_features := planes |}.
  change (BasicBlock.conv2 (BasicBlock.__init__ inplanes planes s ds))
    with (conv3x3 planes planes 1).
  change (BasicBlock.bn2 (BasicBlock.__init__ inplanes planes s ds))
    with {| BatchNorm2d.num_features := planes |}.
  change (BasicBlock.downsample (BasicBlock.__init__ inplanes planes s ds))
    with ds.
  rewrite Ea. cbn [Py.bind]. rewrite Eb. cbn [Py.bind].
  rewrite Ec. cbn [Py.bind]. rewrite Eo. cbn [Py.bind].
  reflexivity.
Qed.


Lemma conv1x1_out_size i o s h :
  Conv2d.out_size {| Conv2d.in_channels := i; Conv2d.out_channels := o;
                     Conv2d.kernel_size := 1; Conv2d.stride := s;
                     Conv2d.padding := 0 |} h
  = strided s h.
Proof.
  unfold Conv2d.out_size, strided.
  cbn [Conv2d.padding Conv2d.kernel_size Conv2d.stride].
  rewrite Nat.mul_0_r, Nat.add_0_r. reflexivity.
Qed.

(** The downsample [_make_layer] builds gives the residual the size of the
    main path's output. *)
Lemma make_layer_downsample inplanes planes s sd (x : Tensor) n h w :
  (1 <= s)%nat -> (1 <= h)%nat -> (1 <= w)%nat ->
  shape x = [n; inplanes; h; w] ->
  (n * (strided s h * strided s w) <> 1)%nat ->
  exists r,
    BasicBlock.downsample_forward
      {| BasicBlock.ds0 :=
           {| Conv2d.in_channels := inplanes;
              Conv2d.out_channels := planes;
              Conv2d.kernel_size := 1;
              Conv2d.stride := s;
              Conv2d.padding := 0 |};
         BasicBlock.ds1 := {| BatchNorm2d.num_features := planes |} |} sd x
    = Ok r
    /\ shape r = [n; planes; strided s h; strided s w].
Proof.
  intros Hs Hh Hw Hx Hc. unfold BasicBlock.downsample_forward.
  cbn [BasicBlock.ds0 BasicBlock.ds1].
  match goal with
  | |- context [Conv2d.forward ?c ?sd' x] =>
      rewrite (conv2d_forward_ok c sd' x n h w Hx);
        [| simpl; lia | simpl; lia | simpl; lia]
  end.
  rewrite !conv1x1_out_size. cbn [Py.bind Conv2d.out_channels].
  erewrite (batch_norm_forward_ok _ _ _ n (strided s h) (strided s w));
    [| reflexivity | exact Hc].
  eexists. split; reflexivity.
Qed.

(** A block as [_make_layer] builds it keeps the batch size, has [planes]
    channels and divides the spatial size by its stride. *)
Lemma basic_block_shape inplanes planes s ds sd (x : Tensor) n h w :
  (1 <= s)%nat -> (1 <= h)%nat -> (1 <= w)%nat ->
  shape x = [n; inplanes; h; w] ->
  (n * (strided s h * strided s w) <> 1)%nat ->
  (ds = None /\ s = 1%nat /\ inplanes = planes
   \/ ds = Some {| BasicBlock.ds0 :=
                     {| Conv2d.in_channels := inplanes;
                        Conv2d.out_channels := planes;
                        Conv2d.kernel_size := 1;
                        Conv2d.stride := s;
                        Conv2d.padding := 0 |};
                   BasicBlock.ds1 := {| BatchNorm2d.num_features := planes |} |}) ->
  exists y,
    BasicBlock.forward (BasicBlock.__init__ inplanes planes s ds) sd x = Ok y
    /\ shape y = [n; planes; strided s h; strided s w].
Proof.
  intros Hs Hh Hw Hx Hc Hds.
  destruct (basic_block_main_path inplanes planes s ds sd x n h w
              Hs Hh Hw Hx Hc)
    as [a [b [c [out [_ [_ [_ [_ [So [_ ->]]]]]]]]]].
  destruct Hds as [[-> [-> ->]] | ->].
  - cbn [Py.bind]. rewrite iadd_ok.
    + cbn [Py.bind]. eexists. split; [reflexivity|]. exact So.
    + rewrite Hx, So, !strided_1 by assumption. reflexivity.
  - destruct (make_layer_downsample inplanes planes s
                (sub_state_dict "downsample." sd) x n h w Hs Hh Hw Hx Hc)
      as [r [-> Sr]].
    cbn [Py.bind]. rewrite iadd_ok.
    + cbn [Py.bind]. eexists. split; [reflexivity|]. exact So.
    + rewrite Sr, So. reflexivity.
Qed.

Lemma sequential_repeat_shape p k i sd (x : Tensor) n h w :
  (1 <= h)%nat -> (1 <= w)%nat ->
  (n * (h * w) <> 1)%nat ->
  shape x = [n; p; h; w] ->
  exists y,
    Sequential.forward_from i (repeat (BasicBlock.__init__ p p 1 None) k) sd x
    = Ok y
    /\ shape y = [n; p; h; w].
Proof.
  intros Hh Hw Hc. revert i x.
  induction k as [|k IH]; intros i x Hx; simpl.
  - exists x. split; [reflexivity | exact Hx].
  - destruct (basic_block_shape
                p p 1 None
                (sub_state_dict (str_of_int (Z.of_nat i) ++ ".") sd) x n h w)
      as [y [Hy Hsy]]; try lia;
      [exact Hx | rewrite !strided_1 by assumption; exact Hc | left; auto |].
    rewrite Hy. cbn [Py.bind].
    apply IH. rewrite Hsy, !strided_1 by assumption. reflexivity.
Qed.

Lemma make_layer_shape inplanes planes blocks s sd (x : Tensor) n h w :
  (1 <= s)%nat -> (1 <= h)%nat -> (1 <= w)%nat ->
  shape x = [n; inplanes; h; w] ->
  (n * (strided s h * strided s w) <> 1)%nat ->
  snd (Wide_ResNet_Cifar._make_layer inplanes planes blocks s) = planes
  /\ exists y,
       Sequential.forward
         (fst (Wide_ResNet_Cifar._make_layer inplanes planes blocks s)) sd x
       = Ok y
       /\ shape y = [n; planes; strided s h; strided s w].
Proof.
  intros Hs Hh Hw Hx Hc.
  unfold Wide_ResNet_Cifar._make_layer, BasicBlock.expansion.
  rewrite !Nat.mul_1_r. cbn [fst snd]. split; [reflexivity|].
  unfold Sequential.forward. cbn [app Sequential.forward_from].
  match goal with
  | |- context [BasicBlock.__init__ inplanes planes s ?ds] =>
      destruct (basic_block_shape
                  inplanes planes s ds
                  (sub_state_dict (str_of_int (Z.of_nat 0) ++ ".") sd) x n h w)
        as [y [Hy Hsy]]; try assumption
  end.
  - destruct (Nat.eqb_spec s 1) as [->|]; simpl; [|right; reflexivity].
    destruct (Nat.eqb_spec inplanes planes) as [->|]; simpl;
      [left; auto | right; reflexivity].
  - rewrite Hy. cbn [Py.bind].
    apply sequential_repeat_shape;
      [apply strided_pos | apply strided_pos | exact Hc | exact Hsy].
Qed.

(** ** What the size of a result says about the input *)

Lemma conv2d_forward_returns (c : Conv2d.t) sd (x y : Tensor) n ch h w :
  Conv2d.forward c sd x = Ok y ->
  shape x = [n; ch; h; w] ->
  Conv2d.accepts c ch h w = true
  /\ shape y = [n; Conv2d.out_channels c; Conv2d.out_size c h;
                Conv2d.out_size c w].
Proof.
  unfold Conv2d.forward. intros H Hx. rewrite Hx in H.
  destruct (Conv2d.accepts c ch h w); [|discriminate].
  injection H as <-. split; reflexivity.
Qed.

Lemma batch_norm_forward_returns (b : BatchNorm2d.t) sd (x y : Tensor) :
  BatchNorm2d.forward b sd x = Ok y -> shape y = shape x.
Proof.
  unfold BatchNorm2d.forward.
  destruct (shape x) as [|n [|ch [|h [|w [|? ?]]]]]; try discriminate.
  destruct (_ =? 1)%nat; [discriminate|].
  destruct (_ =? _)%nat; [|discriminate]. intros H. injection H as <-.
  reflexivity.
Qed.

Lemma iadd_returns (out residual y : Tensor) :
  iadd out residual = Ok y -> shape y = shape out.
Proof.
  unfold iadd. destruct (broadcastable_rev _ _); [|discriminate].
  intros H. injection H as <-. reflexivity.
Qed.

Lemma basic_block_returns inplanes planes s ds sd (x y : Tensor) n ch h w :
  (1 <= h)%nat -> (1 <= w)%nat ->
  shape x = [n; ch; h; w] ->
  BasicBlock.forward (BasicBlock.__init__ inplanes planes s ds) sd x = Ok y ->
  shape y = [n; planes; strided s h; strided s w].
Proof.
  intros Hh Hw Hx. unfold BasicBlock.forward.
  change (BasicBlock.conv1 (BasicBlock.__init__ inplanes planes s ds))
    with (conv3x3 inplanes planes s).
  change (BasicBlock.conv2 (BasicBlock.__init__ inplanes planes s ds))
    with (conv3x3 planes planes 1).
  destruct (Conv2d.forward (conv3x3 inplanes planes s) _ x) as [a|] eqn:Ea;
    cbn [Py.bind]; [|discriminate].
  destruct (BatchNorm2d.forward _ _ a) as [b|] eqn:Eb;
    cbn [Py.bind]; [|discriminate].
  destruct (Conv2d.forward (conv3x3 planes planes 1) _ (relu b)) as [c|] eqn:Ec;
    cbn [Py.bind]; [|discriminate].
  destruct (BatchNorm2d.forward _ _ c) as [out|] eqn:Eo;
    cbn [Py.bind]; [|discriminate].
  destruct (match BasicBlock.downsample _ with Some _ => _ | None => _ end)
    as [r|]; cbn [Py.bind]; [|discriminate].
  destruct (iadd out r) as [o|] eqn:Es; cbn [Py.bind]; [|discriminate].
  intros H. injection H as <-.
  apply (conv2d_forward_returns _ _ _ _ n ch h w) in Ea; [|exact Hx].
  destruct Ea as [_ Sa].
  change (Conv2d.out_size (conv3x3 inplanes planes s))
    with (Conv2d.out_size (conv3x3 0 0 s)) in Sa.
  rewrite !conv3x3_out_size in Sa by assumption.
  apply batch_norm_forward_returns in Eb, Eo. apply iadd_returns in Es.
  pose proof (strided_pos s h) as Hh'. pose proof (strided_pos s w) as Hw'.
  apply (conv2d_forward_returns _ _ _ _ n planes (strided s h) (strided s w))
    in Ec; [|cbn [relu shape]; rewrite Eb; exact Sa].
  destruct Ec as [_ Sc].
  change (Conv2d.out_size (conv3x3 planes planes 1))
    with (Conv2d.out_size (conv3x3 0 0 1)) in Sc.
  rewrite !conv3x3_out_size, !strided_1 in Sc by assumption.
  cbn [relu shape]. rewrite Es, Eo. exact Sc.
Qed.

Lemma sequential_repeat_returns p k i sd (x y : Tensor) n h w :
  (1 <= h)%nat -> (1 <= w)%nat ->
  shape x = [n; p; h; w] ->
  Sequential.forward_from i (repeat (BasicBlock.__init__ p p 1 None) k) sd x
  = Ok y ->
  shape y = [n; p; h; w].
Proof.
  intros Hh Hw. revert i x.
  induction k as [|k IH]; intros i x Hx; simpl.
  - intros H. injection H as <-. exact Hx.
  - destruct (BasicBlock.forward _ _ x) as [z|] eqn:Ez;
      cbn [Py.bind]; [|discriminate].
    apply (basic_block_returns p p 1 None _ x z n p h w Hh Hw Hx) in Ez.
    rewrite !strided_1 in Ez by assumption.
    apply IH. exact Ez.
Qed.

Lemma make_layer_returns inplanes planes blocks s sd (x y : Tensor) n ch h w :
  (1 <= h)%nat -> (1 <= w)%nat ->
  shape x = [n; ch; h; w] ->
  Sequential.forward
    (fst (Wide_ResNet_Cifar._make_layer inplanes planes blocks s)) sd x = Ok y ->
  shape y = [n; planes; strided s h; strided s w].
Proof.
  intros Hh Hw Hx.
  unfold Wide_ResNet_Cifar._make_layer, BasicBlock.expansion.
  rewrite !Nat.mul_1_r. cbn [fst].
  unfold Sequential.forward. cbn [app Sequential.forward_from].
  destruct (BasicBlock.forward _ _ x) as [z|] eqn:Ez;
    cbn [Py.bind]; [|discriminate].
  apply (basic_block_returns _ _ _ _ _ x z n ch h w Hh Hw Hx) in Ez.
  apply sequential_repeat_returns; [apply strided_pos | apply strided_pos | exact Ez].
Qed.


End ForwardFacts.

Section Forward.
Context {T : Torch} {U : Utils}.
Import Wide_ResNet_Cifar.

Lemma make_layer_snd inplanes planes blocks s :
  snd (_make_layer inplanes planes blocks s) = planes.
Proof. unfold _make_layer, BasicBlock.expansion. apply Nat.mul_1_r. Qed.

(** The attributes [__init__] leaves on the model. *)
Lemma init_attributes layers wfactor num_classes temp0 tau root params0 rng m rng' :
  __init__ layers wfactor num_classes temp0 tau root params0 rng = Ok (m, rng') ->
  exists n0 n1 n2,
    conv1 m = conv3x3 3 16 1
    /\ bn1 m = {| BatchNorm2d.num_features := 16 |}
    /\ layer1 m = fst (_make_layer 16 (16 * wfactor) n0 1)
    /\ layer2 m = fst (_make_layer (16 * wfactor) (32 * wfactor) n1 2)
    /\ layer3 m = fst (_make_layer (32 * wfactor) (64 * wfactor) n2 2)
    /\ avgpool m = {| AvgPool2d.kernel_size := 8; AvgPool2d.stride := 1 |}
    /\ fc m = {| Linear.in_features := 64 * wfactor;
                 Linear.out_features := num_classes |}
    /\ temp m = temp0
    /\ block_names m = ["layer1"; "layer2"; "layer3"; "fc"]
    /\ model_name m = "wide_resnet"
    /\ weight_root m = root
    /\ _tau m = tau
    /\ ops m = None
    /\ params m = params0
    /\ _initialize_alphas rng = Ok (alphas m, gumbel m, rng').
Proof.
  unfold __init__. intros H.
  destruct (getitem layers 0) as [n0|]; cbn [Py.bind] in H; [|discriminate].
  destruct (_make_layer 16 (16 * wfactor) n0 1) as [l1 i1] eqn:E1.
  pose proof (make_layer_snd 16 (16 * wfactor) n0 1) as S1.
  rewrite E1 in S1. cbn [snd] in S1. subst i1.
  destruct (getitem layers 1) as [n1|]; cbn [Py.bind] in H; [|discriminate].
  destruct (_make_layer (16 * wfactor) (32 * wfactor) n1 2) as [l2 i2] eqn:E2.
  pose proof (make_layer_snd (16 * wfactor) (32 * wfactor) n1 2) as S2.
  rewrite E2 in S2. cbn [snd] in S2. subst i2.
  destruct (getitem layers 2) as [n2|]; cbn [Py.bind] in H; [|discriminate].
  destruct (_make_layer (32 * wfactor) (64 * wfactor) n2 2) as [l3 i3] eqn:E3.
  destruct (negb (forallb _ _)); [discriminate|].
  destruct (_initialize_alphas rng) as [[[a g] rng1]|];
    cbn [Py.bind] in H; [|discriminate].
  injection H as <- <-. exists n0, n1, n2.
  cbn [conv1 bn1 layer1 layer2 layer3 avgpool fc temp block_names model_name
       weight_root _tau ops params alphas gumbel].
  rewrite E1, E2, E3. repeat split; reflexivity.
Qed.

Lemma avg_pool_8_ok (x : Tensor) n c :
  shape x = [n; c; 8; 8]%nat ->
  AvgPool2d.forward {| AvgPool2d.kernel_size := 8; AvgPool2d.stride := 1 |} x
  = Ok {| shape := [n; c; 1; 1]%nat; data := avg_pool2d_k 8 1 (data x) |}.
Proof. intros Hx. unfold AvgPool2d.forward. rewrite Hx. reflexivity. Qed.

Lemma view_flat_ok (x : Tensor) n c :
  (1 <= n)%nat -> shape x = [n; c; 1; 1]%nat ->
  view_flat x = Ok {| shape := [n; c]; data := data x |}.
Proof.
  intros Hn Hx. unfold view_flat. rewrite Hx.
  destruct (Nat.eqb_spec n 0); [lia|].
  cbn [fold_right]. rewrite !Nat.mul_1_r. reflexivity.
Qed.

Lemma linear_forward_ok (l : Linear.t) sd (x : Tensor) n :
  shape x = [n; Linear.in_features l] ->
  Linear.forward l sd x
  = Ok {| shape := [n; Linear.out_features l]; data := linear_k sd (data x) |}.
Proof.
  intros Hx. unfold Linear.forward. rewrite Hx. cbn [rev app].
  rewrite Nat.eqb_refl. reflexivity.
Qed.

(** C6, as the code has it.  On a model built by [__init__], whatever its
    parameters, and a batch [x] of [N >= 1] images of 3 channels and 32x32
    pixels, every layer accepts its input and [forward] returns
    [fc(flatten(avgpool(layer3(layer2(layer1(relu(bn1(conv1(x)))))))))
    / temp], a tensor of [N] rows and [num_classes] columns. *)
Theorem forward_logits layers wfactor num_classes temp0 tau root params0 rng
        m rng' (ps : StateDict) (x : Tensor) (N : nat) :
  __init__ layers wfactor num_classes temp0 tau root params0 rng = Ok (m, rng') ->
  (1 <= N)%nat ->
  shape x = [N; 3; 32; 32]%nat ->
  let self := set_params ps m in
  exists a b l1 l2 l3 p v f,
    Conv2d.forward (conv1 self) (sub_state_dict "conv1." ps) x = Ok a
    /\ BatchNorm2d.forward (bn1 self) (sub_state_dict "bn1." ps) a = Ok b
    /\ Sequential.forward (layer1 self) (sub_state_dict "layer1." ps) (relu b)
       = Ok l1
    /\ Sequential.forward (layer2 self) (sub_state_dict "layer2." ps) l1 = Ok l2
    /\ Sequential.forward (layer3 self) (sub_state_dict "layer3." ps) l2 = Ok l3
    /\ AvgPool2d.forward (avgpool self) l3 = Ok p
    /\ view_flat p = Ok v
    /\ Linear.forward (fc self) (sub_state_dict "fc." ps) v = Ok f
    /\ forward self x = Ok (div_scalar f temp0)
    /\ shape (div_scalar f temp0) = [N; num_classes].
Proof.
  intros Hinit HN Hx self.
  destruct (init_attributes _ _ _ _ _ _ _ _ _ _ Hinit)
    as [n0 [n1 [n2 [Hc1 [Hb1 [Hl1 [Hl2 [Hl3 [Hap [Hfc [Htemp _]]]]]]]]]]].
  unfold forward.
  assert (Hself : conv1 self = conv1 m /\ bn1 self = bn1 m
                  /\ layer1 self = layer1 m /\ layer2 self = layer2 m
                  /\ layer3 self = layer3 m /\ avgpool self = avgpool m
                  /\ fc self = fc m /\ temp self = temp m
                  /\ params self = ps) by (repeat split; reflexivity).
  destruct Hself as [-> [-> [-> [-> [-> [-> [-> [-> ->]]]]]]]].
  rewrite Hc1, Hb1, Hl1, Hl2, Hl3, Hap, Hfc, Htemp.
  pose proof (conv2d_forward_ok (conv3x3 3 16 1) (sub_state_dict "conv1." ps)
                                x N 32 32 Hx) as Ea.
  specialize (Ea ltac:(simpl; lia) ltac:(simpl; lia) ltac:(simpl; lia)).
  change (Conv2d.out_size (conv3x3 3 16 1) 32) with 32%nat in Ea.
  cbn [Conv2d.out_channels conv3x3 Conv2d.stride Conv2d.padding] in Ea.
  rewrite Ea. cbn [Py.bind].
  match type of Ea with _ = Ok ?a => set (a0 := a) in * end.
  pose proof (batch_norm_forward_ok {| BatchNorm2d.num_features := 16 |}
                (sub_state_dict "bn1." ps) a0 N 32 32 eq_refl ltac:(lia)) as Eb.
  rewrite Eb. cbn [Py.bind].
  match type of Eb with _ = Ok ?b => set (b0 := b) in * end.
  destruct (make_layer_shape 16 (16 * wfactor) n0 1
              (sub_state_dict "layer1." ps) (relu b0) N 32 32)
    as [_ [l1 [E1 S1]]];
    [lia | lia | lia | reflexivity | change (strided 1 32) with 32%nat; lia |].
  change (strided 1 32) with 32%nat in S1.
  destruct (make_layer_shape (16 * wfactor) (32 * wfactor) n1 2
              (sub_state_dict "layer2." ps) l1 N 32 32)
    as [_ [l2 [E2 S2]]];
    [lia | lia | lia | exact S1 | change (strided 2 32) with 16%nat; lia |].
  change (strided 2 32) with 16%nat in S2.
  destruct (make_layer_shape (32 * wfactor) (64 * wfactor) n2 2
              (sub_state_dict "layer3." ps) l2 N 16 16)
    as [_ [l3 [E3 S3]]];
    [lia | lia | lia | exact S2 | change (strided 2 16) with 8%nat; lia |].
  change (strided 2 16) with 8%nat in S3.
  rewrite E1. cbn [Py.bind]. rewrite E2. cbn [Py.bind].
  rewrite E3. cbn [Py.bind].
  pose proof (avg_pool_8_ok l3 N (64 * wfactor) S3) as Ep.
  rewrite Ep. cbn [Py.bind].
  match type of Ep with _ = Ok ?p => set (p0 := p) in * end.
  pose proof (view_flat_ok p0 N (64 * wfactor) HN eq_refl) as Ev.
  rewrite Ev. cbn [Py.bind].
  match type of Ev with _ = Ok ?v => set (v0 := v) in * end.
  pose proof (linear_forward_ok
                {| Linear.in_features := 64 * wfactor;
                   Linear.out_features := num_classes |}
                (sub_state_dict "fc." ps) v0 N eq_refl) as Ef.
  rewrite Ef. cbn [Py.bind].
  match type of Ef with _ = Ok ?f => set (f0 := f) in * end.
  exists a0, b0, l1, l2, l3, p0, v0, f0.
  repeat split; try assumption; reflexivity.
Qed.

End Forward.

(* ================================================================== *)
(** * The properties on the small instance *)
(* ================================================================== *)

Section Examples.
Import Wide_ResNet_Cifar.
#[local] Existing Instance Toy.torch.
#[local] Existing Instance Toy.utils.

Example toy_model_built :
  wide_resnet_cifar 1%Z 10 8 1 1%Z (Some Toy.folder) Toy.params0 0%Z
  = Ok (Toy.model, 2%Z).
Proof. reflexivity. Qed.

(** C5, as stated, fails on a dictionary in which two keys under ["fc"]
    differ in their third character only: the entry [("fc.w", 1)] starts
    with ["fc"], and the renamed dictionary holds 2 under ["w"]. *)
Lemma renaming_collision :
  NoDup (keys Toy.colliding)
  /\ In ("fc.w", Toy.tn [1] 1) Toy.colliding
  /\ startswith "fc.w" "fc" = true
  /\ slice_from 3 "fc.w" = "w"
  /\ get "w" (strip_comprehension 3 "fc" Toy.colliding) = Some (Toy.tn [1] 2)
  /\ get "w" (strip_comprehension 3 "fc" Toy.colliding) <> Some (Toy.tn [1] 1).
Proof.
  split.
  { repeat constructor; simpl; intuition discriminate. }
  split; [left; reflexivity|].
  repeat split; try reflexivity.
  vm_compute. discriminate.
Qed.

Lemma block_state_dict_renaming_witness :
  block_state_dict "fc" Toy.colliding
  = update Toy.colliding (strip_comprehension 3 "fc" Toy.colliding)
  /\ get (slice_from 3 "fc.weight")
         (strip_comprehension 3 "fc" (Toy.checkpoint 1))
     = Some (Toy.tn [10; 64] 1).
Proof.
  split.
  - exact (proj1 (block_state_dict_renaming
                    "fc" Toy.colliding
                    (or_intror (or_intror (or_intror (or_introl eq_refl)))))).
  - apply (proj1 (proj2 (proj2 (block_state_dict_renaming
                    "fc" (Toy.checkpoint 1)
                    (or_intror (or_intror (or_intror (or_introl eq_refl)))))))).
    + repeat constructor; simpl; intuition discriminate.
    + intros k2 Hin Hs Hk. simpl in Hin.
      repeat (destruct Hin as [<-|Hin]; [try discriminate Hs; try discriminate Hk;
                                         try reflexivity|]).
      contradiction.
    + simpl. tauto.
    + reflexivity.
Defined.

Lemma load_block_frame_witness :
  sub_state_dict "conv1."
    (params (self (fst (load_block "layer2" (Toy.checkpoint 3) Toy.world))))
  = sub_state_dict "conv1." (params (self Toy.world)).
Proof.
  exact (proj1 (load_block_frame "layer2" (Toy.checkpoint 3) Toy.world
                  (or_intror (or_introl eq_refl)))).
Defined.

Lemma checkpoint_file_names_witness :
  exists l,
    opened (fst (load_gumbel_weight Toy.world)) = (opened Toy.world ++ l)%list
    /\ Forall (checkpoint_name (weight_root (self Toy.world))) l.
Proof.
  exact (proj2 (proj2 (checkpoint_file_names Toy.world eq_refl))).
Defined.




(** C3 on the code.  With [combination = [0, 1, 2, 3]] and the checkpoints
    1, 2, 3, 4 and 350 on disk, [load_combination_weight] opens the file
    numbered 350 and then four times the file numbered 1; the parameter of
    [layer2] holds the tensor of checkpoint 1, not that of checkpoint 2. *)
Theorem load_combination_weight_first_entry_only :
  snd (load_combination_weight [0; 1; 2; 3]%Z (Some Toy.folder) "wide_resnet"
                               Toy.world) = Ok tt
  /\ opened (fst (load_combination_weight [0; 1; 2; 3]%Z (Some Toy.folder)
                                          "wide_resnet" Toy.world))
     = ["ckpt/wide_resnet_cross_entropy_350.model";
        "ckpt/wide_resnet_cross_entropy_1.model";
        "ckpt/wide_resnet_cross_entropy_1.model";
        "ckpt/wide_resnet_cross_entropy_1.model";
        "ckpt/wide_resnet_cross_entropy_1.model"]
  /\ get "layer2.0.conv1.weight"
         (params (self (fst (load_combination_weight
                               [0; 1; 2; 3]%Z (Some Toy.folder) "wide_resnet"
                               Toy.world))))
     = Some (Toy.tn [32; 16; 3; 3] 1)
  /\ Toy.disk "ckpt/wide_resnet_cross_entropy_2.model" = Some (Toy.checkpoint 2)
  /\ get "layer2.0.conv1.weight" (Toy.checkpoint 2)
     = Some (Toy.tn [32; 16; 3; 3] 2).
Proof. repeat split; reflexivity. Qed.



Lemma forward_logits_witness :
  exists y,
    forward (set_params (Toy.checkpoint 3) Toy.model)
            (Toy.tn [2; 3; 32; 32] 0) = Ok y
    /\ shape y = [2; 10]%nat.
Proof.
  destruct (forward_logits
              (T := Toy.torch) (U := Toy.utils)
              [1; 1; 1]%Z 1 10 1%Z 1%Z (Some Toy.folder) Toy.params0 0%Z
              Toy.model 2%Z (Toy.checkpoint 3) (Toy.tn [2; 3; 32; 32] 0) 2
              eq_refl ltac:(lia) eq_refl)
    as [a [b [l1 [l2 [l3 [p [v [f H]]]]]]]].
  exists (div_scalar f 1%Z).
  split; [apply H | apply H].
Defined.

(** C6, as stated, fails on the empty batch: [x.view(x.size(0), -1)] has
    nothing to infer the second size from and raises. *)
Lemma forward_empty_batch_raises :
  shape (Toy.tn [0; 3; 32; 32] 0) = [0; 3; 32; 32]%nat
  /\ forward Toy.model (Toy.tn [0; 3; 32; 32] 0) = Raise RuntimeError.
Proof. split; reflexivity. Qed.

End Examples.


(* ================================================================== *)
(** * Construction of the network *)
(* ================================================================== *)

Section Construction.
Context {T : Torch} {U : Utils}.
Import Wide_ResNet_Cifar.

Lemma make_layer_length inplanes planes blocks stride :
  length (fst (_make_layer inplanes planes blocks stride))
  = Z.to_nat (Z.max 1 blocks).
Proof.
  unfold _make_layer. cbn [fst]. rewrite length_app, repeat_length.
  cbn [length]. lia.
Qed.

Lemma make_layer_tail inplanes planes blocks stride i b :
  (1 <= i)%nat ->
  nth_error (fst (_make_layer inplanes planes blocks stride)) i = Some b ->
  b = BasicBlock.__init__ planes planes 1 None.
Proof.
  unfold _make_layer, BasicBlock.expansion. rewrite Nat.mul_1_r. cbn [fst app].
  intros Hi H. destruct i as [|i]; [lia|]. cbn [nth_error] in H.
  apply nth_error_In, repeat_spec in H. exact H.
Qed.

(** X1. [_make_layer] returns [max(1, int(blocks))] blocks and leaves
    [self.inplanes] at [planes].  The first block has the given stride and a
    downsample (a 1x1 convolution of that stride to [planes] channels and a
    batch normalisation) exactly when the stride is not 1 or the number of
    channels changes; every later block has stride 1, [planes] input
    channels and no downsample. *)
Theorem make_layer_blocks inplanes planes blocks stride :
  let layer := fst (_make_layer inplanes planes blocks stride) in
  length layer = Z.to_nat (Z.max 1 blocks)
  /\ snd (_make_layer inplanes planes blocks stride) = planes
  /\ (exists ds,
        nth_error layer 0 = Some (BasicBlock.__init__ inplanes planes stride ds)
        /\ (ds = None <-> stride = 1%nat /\ inplanes = planes)
        /\ (forall d, ds = Some d ->
              BasicBlock.ds0 d
              = {| Conv2d.in_channels := inplanes;
                   Conv2d.out_channels := planes;
                   Conv2d.kernel_size := 1;
                   Conv2d.stride := stride;
                   Conv2d.padding := 0 |}
              /\ BasicBlock.ds1 d = {| BatchNorm2d.num_features := planes |}))
  /\ (forall i b, (1 <= i)%nat -> nth_error layer i = Some b ->
                  b = BasicBlock.__init__ planes planes 1 None).
Proof.
  intros layer. split; [apply make_layer_length|].
  split; [apply make_layer_snd|].
  split; [|intros i b; apply make_layer_tail].
  unfold layer, _make_layer, BasicBlock.expansion. rewrite !Nat.mul_1_r.
  cbn [fst app nth_error]. eexists. split; [reflexivity|].
  destruct (Nat.eqb_spec stride 1) as [Hs|Hs];
    destruct (Nat.eqb_spec inplanes planes) as [Hp|Hp]; cbn [negb orb].
  - split; [tauto|]. intros d Hd. discriminate.
  - split; [split; [discriminate | tauto]|].
    intros d Hd. injection Hd as <-. split; reflexivity.
  - split; [split; [discriminate | tauto]|].
    intros d Hd. injection Hd as <-. split; reflexivity.
  - split; [split; [discriminate | tauto]|].
    intros d Hd. injection Hd as <-. split; reflexivity.
Qed.

(** The initialisation loop divides by a positive number for every
    convolution of a layer exactly when the layer has channels. *)
Lemma make_layer_fan_out inplanes planes blocks stride :
  forallb (fun m => (0 <? fan_out m)%nat)
          (flat_map block_convs (fst (_make_layer inplanes planes blocks stride)))
  = (0 <? planes)%nat.
Proof.
  unfold _make_layer, BasicBlock.expansion. rewrite !Nat.mul_1_r. cbn [fst].
  rewrite flat_map_app, forallb_app.
  assert (Hrep : forall k,
             forallb (fun m => (0 <? fan_out m)%nat)
                     (flat_map block_convs
                        (repeat (BasicBlock.__init__ planes planes 1 None) k))
             = true \/ (planes = 0%nat)).
  { intros k. destruct planes as [|p]; [right; reflexivity|]. left.
    induction k as [|k IH]; [reflexivity|].
    cbn [repeat flat_map]. rewrite forallb_app, IH, andb_true_r.
    unfold block_convs, BasicBlock.__init__, fan_out, conv3x3. cbn.
    reflexivity. }
  destruct planes as [|p].
  - cbn [flat_map]. unfold block_convs, BasicBlock.__init__, fan_out, conv3x3.
    cbn. reflexivity.
  - destruct (Hrep (Z.to_nat (blocks - 1))) as [-> | ?]; [|discriminate].
    rewrite andb_true_r. cbn [flat_map]. rewrite app_nil_r.
    unfold block_convs, BasicBlock.__init__, fan_out, conv3x3.
    destruct (negb (stride =? 1)%nat || negb (inplanes =? S p)%nat); cbn;
      reflexivity.
Qed.

Lemma getitem_ok_lt {A} (l : list A) (i : nat) v :
  getitem l (Z.of_nat i) = Ok v -> (i < length l)%nat.
Proof.
  unfold getitem.
  destruct (Z.ltb_spec (Z.of_nat i) 0); [lia|].
  destruct (Z.leb_spec 0 (Z.of_nat i)); [|lia].
  destruct (Z.ltb_spec (Z.of_nat i) (Z.of_nat (length l))); [lia|].
  discriminate.
Qed.

Lemma getitem_short {A} (l : list A) (i : nat) :
  (length l <= i)%nat -> getitem l (Z.of_nat i) = Raise IndexError.
Proof.
  intros H. unfold getitem.
  destruct (Z.ltb_spec (Z.of_nat i) 0); [lia|].
  destruct (Z.ltb_spec (Z.of_nat i) (Z.of_nat (length l))); [lia|].
  rewrite andb_false_r. reflexivity.
Qed.

Lemma getitem_in_range {A} (l : list A) (i : nat) :
  (i < length l)%nat -> exists v, getitem l (Z.of_nat i) = Ok v.
Proof.
  intros H. unfold getitem.
  destruct (Z.ltb_spec (Z.of_nat i) 0); [lia|].
  destruct (Z.leb_spec 0 (Z.of_nat i)); [|lia].
  destruct (Z.ltb_spec (Z.of_nat i) (Z.of_nat (length l))); [|lia].
  cbn [andb]. rewrite Nat2Z.id.
  destruct (nth_error l i) as [v|] eqn:E; [exists v; reflexivity|].
  apply nth_error_None in E. lia.
Qed.

(** What decides whether [__init__] returns. *)
Lemma init_outcome layers wfactor num_classes temp0 tau root params0 rng :
  ((length layers < 3)%nat ->
   __init__ layers wfactor num_classes temp0 tau root params0 rng
   = Raise IndexError)
  /\ ((3 <= length layers)%nat -> wfactor = 0%nat ->
      __init__ layers wfactor num_classes temp0 tau root params0 rng
      = Raise ZeroDivisionError)
  /\ ((3 <= length layers)%nat -> (1 <= wfactor)%nat ->
      match cuda_init with
      | Ok _ =>
          exists m rng',
            __init__ layers wfactor num_classes temp0 tau root params0 rng
            = Ok (m, rng')
      | Raise e =>
          __init__ layers wfactor num_classes temp0 tau root params0 rng
          = Raise e
      end).
Proof.
  unfold __init__.
  change 0%Z with (Z.of_nat 0). change 1%Z with (Z.of_nat 1).
  change 2%Z with (Z.of_nat 2).
  split; [|split].
  - intros Hl.
    destruct (getitem layers (Z.of_nat 0)) as [n0|e] eqn:E0; cbn [Py.bind].
    + destruct (_make_layer 16 (16 * wfactor) n0 1) as [l1 i1].
      destruct (getitem layers (Z.of_nat 1)) as [n1|e] eqn:E1; cbn [Py.bind].
      * destruct (_make_layer i1 (32 * wfactor) n1 2) as [l2 i2].
        apply getitem_ok_lt in E0, E1.
        rewrite (getitem_short layers 2) by lia. reflexivity.
      * apply getitem_ok_lt in E0.
        destruct (Nat.lt_ge_cases 1 (length layers)) as [H|H].
        -- destruct (getitem_in_range layers 1 H) as [v Hv]. congruence.
        -- rewrite (getitem_short layers 1 H) in E1. congruence.
    + destruct (Nat.lt_ge_cases 0 (length layers)) as [H|H].
      * destruct (getitem_in_range layers 0 H) as [v Hv]. congruence.
      * rewrite (getitem_short layers 0 H) in E0. congruence.
  - intros Hl ->.
    destruct (getitem_in_range layers 0 ltac:(lia)) as [n0 ->].
    destruct (getitem_in_range layers 1 ltac:(lia)) as [n1 ->].
    destruct (getitem_in_range layers 2 ltac:(lia)) as [n2 ->].
    cbn [Py.bind].
    destruct (_make_layer 16 (16 * 0) n0 1) as [l1 i1] eqn:E1.
    destruct (_make_layer i1 (32 * 0) n1 2) as [l2 i2] eqn:E2.
    destruct (_make_layer i2 (64 * 0) n2 2) as [l3 i3] eqn:E3.
    pose proof (make_layer_fan_out 16 (16 * 0) n0 1) as F1.
    rewrite E1 in F1. cbn [fst] in F1.
    cbn [forallb]. rewrite !flat_map_app, !forallb_app, F1.
    rewrite andb_false_r. reflexivity.
  - intros Hl Hw.
    destruct (getitem_in_range layers 0 ltac:(lia)) as [n0 ->].
    destruct (getitem_in_range layers 1 ltac:(lia)) as [n1 ->].
    destruct (getitem_in_range layers 2 ltac:(lia)) as [n2 ->].
    cbn [Py.bind].
    destruct (_make_layer 16 (16 * wfactor) n0 1) as [l1 i1] eqn:E1.
    destruct (_make_layer i1 (32 * wfactor) n1 2) as [l2 i2] eqn:E2.
    destruct (_make_layer i2 (64 * wfactor) n2 2) as [l3 i3] eqn:E3.
    pose proof (make_layer_fan_out 16 (16 * wfactor) n0 1) as F1.
    pose proof (make_layer_fan_out i1 (32 * wfactor) n1 2) as F2.
    pose proof (make_layer_fan_out i2 (64 * wfactor) n2 2) as F3.
    rewrite E1 in F1. rewrite E2 in F2. rewrite E3 in F3. cbn [fst] in *.
    cbn [forallb]. rewrite !flat_map_app, !forallb_app, F1, F2, F3.
    destruct (Nat.ltb_spec 0 (16 * wfactor)); [|lia].
    destruct (Nat.ltb_spec 0 (32 * wfactor)); [|lia].
    destruct (Nat.ltb_spec 0 (64 * wfactor)); [|lia].
    replace (0 <? fan_out _)%nat with true by reflexivity.
    cbn [andb negb].
    unfold _initialize_alphas, to_cuda.
    destruct (randn_k [4; 350]%nat rng) as [r rng1].
    destruct cuda_init as [[]|e]; cbn [Py.bind]; [|reflexivity].
    destruct (gumbel_like _ rng1) as [g rng2].
    eexists. eexists. reflexivity.
Qed.

Lemma init_layers layers wfactor num_classes temp0 tau root params0 rng m rng' :
  __init__ layers wfactor num_classes temp0 tau root params0 rng = Ok (m, rng') ->
  exists n0 n1 n2,
    getitem layers 0 = Ok n0 /\ getitem layers 1 = Ok n1
    /\ getitem layers 2 = Ok n2
    /\ layer1 m = fst (_make_layer 16 (16 * wfactor) n0 1)
    /\ layer2 m = fst (_make_layer (16 * wfactor) (32 * wfactor) n1 2)
    /\ layer3 m = fst (_make_layer (32 * wfactor) (64 * wfactor) n2 2)
    /\ (1 <= wfactor)%nat
    /\ cuda_init = Ok tt.
Proof.
  unfold __init__. intros H.
  destruct (getitem layers 0) as [n0|]; cbn [Py.bind] in H; [|discriminate].
  destruct (_make_layer 16 (16 * wfactor) n0 1) as [l1 i1] eqn:E1.
  pose proof (make_layer_snd 16 (16 * wfactor) n0 1) as S1.
  rewrite E1 in S1. cbn [snd] in S1. subst i1.
  destruct (getitem layers 1) as [n1|]; cbn [Py.bind] in H; [|discriminate].
  destruct (_make_layer (16 * wfactor) (32 * wfactor) n1 2) as [l2 i2] eqn:E2.
  pose proof (make_layer_snd (16 * wfactor) (32 * wfactor) n1 2) as S2.
  rewrite E2 in S2. cbn [snd] in S2. subst i2.
  destruct (getitem layers 2) as [n2|]; cbn [Py.bind] in H; [|discriminate].
  destruct (_make_layer (32 * wfactor) (64 * wfactor) n2 2) as [l3 i3] eqn:E3.
  pose proof (make_layer_fan_out 16 (16 * wfactor) n0 1) as F1.
  rewrite E1 in F1. cbn [fst] in F1.
  cbn [forallb] in H. rewrite !flat_map_app, !forallb_app, F1 in H.
  destruct (Nat.ltb_spec 0 (16 * wfactor)) as [Hw|Hw];
    [|rewrite andb_false_r in H; discriminate].
  destruct (negb _); [discriminate|].
  pose proof (initialize_alphas_noise rng) as Hcuda.
  destruct (_initialize_alphas rng) as [[[a g] rng1]|];
    cbn [Py.bind] in H; [|discriminate].
  injection H as <- <-. exists n0, n1, n2.
  cbn [layer1 layer2 layer3]. rewrite E1, E2, E3.
  repeat split; try reflexivity; [lia | apply Hcuda].
Qed.

(** X2. [__init__] returns a model exactly when [layers] has at least three
    entries, the widening factor is positive and the host has a CUDA
    device: with fewer entries [layers[i]] raises [IndexError], with
    [wfactor = 0] the initialisation loop divides by [n = 0], and without a
    CUDA device [.to('cuda')] in [_initialize_alphas] raises what the
    framework raises there. *)
Theorem init_returns layers wfactor num_classes temp0 tau root params0 rng :
  ((exists m rng',
       __init__ layers wfactor num_classes temp0 tau root params0 rng
       = Ok (m, rng'))
   <-> (3 <= length layers)%nat /\ (1 <= wfactor)%nat /\ cuda_init = Ok tt)
  /\ ((length layers < 3)%nat ->
      __init__ layers wfactor num_classes temp0 tau root params0 rng
      = Raise IndexError)
  /\ ((3 <= length layers)%nat -> wfactor = 0%nat ->
      __init__ layers wfactor num_classes temp0 tau root params0 rng
      = Raise ZeroDivisionError)
  /\ (forall e,
        (3 <= length layers)%nat -> (1 <= wfactor)%nat ->
        cuda_init = Raise e ->
        __init__ layers wfactor num_classes temp0 tau root params0 rng
        = Raise e).
Proof.
  destruct (init_outcome layers wfactor num_classes temp0 tau root params0 rng)
    as [Hshort [Hzero Hcuda]].
  split; [|split; [assumption | split; [assumption|]]].
  - split.
    + intros [m [rng' H]].
      destruct (Nat.lt_ge_cases (length layers) 3) as [Hl|Hl].
      * rewrite (Hshort Hl) in H. discriminate.
      * split; [exact Hl|]. destruct wfactor as [|w].
        -- rewrite (Hzero Hl eq_refl) in H. discriminate.
        -- split; [lia|]. specialize (Hcuda Hl ltac:(lia)).
           destruct cuda_init as [[]|e]; [reflexivity|].
           rewrite Hcuda in H. discriminate.
    + intros [Hl [Hw Hc]]. specialize (Hcuda Hl Hw).
      rewrite Hc in Hcuda. exact Hcuda.
  - intros e Hl Hw Hc. specialize (Hcuda Hl Hw).
    rewrite Hc in Hcuda. exact Hcuda.
Qed.

(** X3. [wide_resnet_cifar] fails its assertion unless [depth - 2] is a
    multiple of 6, divides by zero for [width = 0] and raises what
    [.to('cuda')] raises on a host without a CUDA device; otherwise it
    returns a model whose three layers have [max(1, (depth - 2) / 6)] blocks
    each, so that from depth 8 on the blocks' 3x3 convolutions together with
    [conv1] and [fc] are [depth] layers, while every depth below 8 gives the
    network of depth 8. *)
Theorem wide_resnet_cifar_depth temp0 num_classes depth width tau root
        params0 rng :
  (((depth - 2) mod 6 <> 0)%Z ->
   wide_resnet_cifar temp0 num_classes depth width tau root params0 rng
   = Raise AssertionError)
  /\ (((depth - 2) mod 6 = 0)%Z -> width = 0%nat ->
      wide_resnet_cifar temp0 num_classes depth width tau root params0 rng
      = Raise ZeroDivisionError)
  /\ (forall e,
        ((depth - 2) mod 6 = 0)%Z -> (1 <= width)%nat ->
        cuda_init = Raise e ->
        wide_resnet_cifar temp0 num_classes depth width tau root params0 rng
        = Raise e)
  /\ (((depth - 2) mod 6 = 0)%Z -> (1 <= width)%nat -> cuda_init = Ok tt ->
      exists m rng',
        wide_resnet_cifar temp0 num_classes depth width tau root params0 rng
        = Ok (m, rng')
        /\ length (layer1 m) = Z.to_nat (Z.max 1 ((depth - 2) / 6))
        /\ length (layer2 m) = Z.to_nat (Z.max 1 ((depth - 2) / 6))
        /\ length (layer3 m) = Z.to_nat (Z.max 1 ((depth - 2) / 6))
        /\ ((8 <= depth)%Z ->
            Z.of_nat (2 * (length (layer1 m) + length (layer2 m)
                           + length (layer3 m)) + 2) = depth)
        /\ ((depth < 8)%Z ->
            length (layer1 m) = 1%nat /\ length (layer2 m) = 1%nat
            /\ length (layer3 m) = 1%nat)).
Proof.
  unfold wide_resnet_cifar.
  set (n := ((depth - 2) / 6)%Z).
  destruct (init_outcome [n; n; n] width num_classes temp0 tau root params0 rng)
    as [_ [Hzero Hcuda]].
  split; [|split; [|split]].
  - intros H. destruct (Z.eqb_spec ((depth - 2) mod 6) 0); [contradiction|].
    reflexivity.
  - intros H Hw. rewrite H. cbn [Z.eqb]. apply Hzero; [simpl; lia | exact Hw].
  - intros e H Hw Hc. rewrite H. cbn [Z.eqb].
    specialize (Hcuda ltac:(simpl; lia) Hw). rewrite Hc in Hcuda. exact Hcuda.
  - intros H Hw Hc. rewrite H. cbn [Z.eqb].
    specialize (Hcuda ltac:(simpl; lia) Hw). rewrite Hc in Hcuda.
    destruct Hcuda as [m [rng' Hm]].
    exists m, rng'. split; [exact Hm|].
    destruct (init_layers _ _ _ _ _ _ _ _ _ _ Hm)
      as [n0 [n1 [n2 [G0 [G1 [G2 [L1 [L2 [L3 _]]]]]]]]].
    assert (Hn : (depth - 2 = 6 * n)%Z).
    { unfold n. pose proof (Z.div_mod (depth - 2) 6 ltac:(discriminate)). lia. }
    clearbody n.
    assert (n0 = n) by (cbv in G0; congruence).
    assert (n1 = n) by (cbv in G1; congruence).
    assert (n2 = n) by (cbv in G2; congruence).
    subst n0 n1 n2. rewrite L1, L2, L3, !make_layer_length.
    repeat split; lia.
Qed.

End Construction.

(* ================================================================== *)
(** * Sizes through the network *)
(* ================================================================== *)

Section Sizes.
Context {T : Torch} {U : Utils}.
Import Wide_ResNet_Cifar.

Lemma map_size_cases h :
  (1 <= h)%nat ->
  ((h <= 28)%nat /\ (map_size h <= 7)%nat)
  \/ ((29 <= h <= 32)%nat /\ map_size h = 8%nat)
  \/ ((33 <= h)%nat /\ (9 <= map_size h)%nat).
Proof.
  intros Hh. unfold map_size, strided.
  pose proof (Nat.div_mod_eq (h - 1) 2) as H1.
  pose proof (Nat.mod_upper_bound (h - 1) 2 ltac:(discriminate)) as H2.
  set (q := ((h - 1) / 2)%nat) in *. set (r := ((h - 1) mod 2)%nat) in *.
  pose proof (Nat.div_mod_eq (q + 1 - 1) 2) as H3.
  pose proof (Nat.mod_upper_bound (q + 1 - 1) 2 ltac:(discriminate)) as H4.
  set (q2 := ((q + 1 - 1) / 2)%nat) in *.
  set (r2 := ((q + 1 - 1) mod 2)%nat) in *.
  clearbody q r q2 r2. lia.
Qed.

Lemma map_size_le h :
  (1 <= h)%nat -> (strided 2 h <= h)%nat /\ (map_size h <= strided 2 h)%nat.
Proof.
  intros Hh. unfold map_size, strided.
  pose proof (Nat.div_mod_eq (h - 1) 2) as H1.
  pose proof (Nat.mod_upper_bound (h - 1) 2 ltac:(discriminate)) as H2.
  set (q := ((h - 1) / 2)%nat) in *. set (r := ((h - 1) mod 2)%nat) in *.
  pose proof (Nat.div_mod_eq (q + 1 - 1) 2) as H3.
  pose proof (Nat.mod_upper_bound (q + 1 - 1) 2 ltac:(discriminate)) as H4.
  set (q2 := ((q + 1 - 1) / 2)%nat) in *.
  set (r2 := ((q + 1 - 1) mod 2)%nat) in *.
  clearbody q r q2 r2. lia.
Qed.

(** The stem and the three layers on a batch of images of any size with
    more than one value for each channel after the last stride. *)
Lemma forward_through_layers layers wfactor num_classes temp0 tau root params0
      rng m rng' (ps : StateDict) (x : Tensor) N h w :
  __init__ layers wfactor num_classes temp0 tau root params0 rng = Ok (m, rng') ->
  (1 <= h)%nat -> (1 <= w)%nat ->
  shape x = [N; 3; h; w] ->
  (N * (map_size h * map_size w) <> 1)%nat ->
  exists l3,
    shape l3 = [N; 64 * wfactor; map_size h; map_size w]
    /\ forward (set_params ps m) x
       = (let? p := AvgPool2d.forward
                      {| AvgPool2d.kernel_size := 8; AvgPool2d.stride := 1 |}
                      l3 in
          let? v := view_flat p in
          let? f := Linear.forward
                      {| Linear.in_features := 64 * wfactor;
                         Linear.out_features := num_classes |}
                      (sub_state_dict "fc." ps) v in
          Ok (div_scalar f temp0)).
Proof.
  intros Hinit Hh Hw Hx Hc3.
  destruct (map_size_le h Hh) as [Hh2 Hh3].
  destruct (map_size_le w Hw) as [Hw2 Hw3].
  pose proof (strided_pos 2 (strided 2 h)) as Hh4.
  pose proof (strided_pos 2 (strided 2 w)) as Hw4.
  fold (map_size h) in Hh4. fold (map_size w) in Hw4.
  pose proof (strided_pos 2 h) as Hh5. pose proof (strided_pos 2 w) as Hw5.
  assert (Hc2 : (N * (strided 2 h * strided 2 w) <> 1)%nat).
  { intros E. apply Hc3. apply Nat.eq_mul_1 in E. destruct E as [EN E].
    apply Nat.eq_mul_1 in E. destruct E as [E1 E2].
    replace (map_size h) with 1%nat by lia.
    replace (map_size w) with 1%nat by lia. lia. }
  assert (Hc1' : (N * (h * w) <> 1)%nat).
  { intros E. apply Hc2. apply Nat.eq_mul_1 in E. destruct E as [EN E].
    apply Nat.eq_mul_1 in E. destruct E as [E1 E2].
    replace (strided 2 h) with 1%nat by lia.
    replace (strided 2 w) with 1%nat by lia. lia. }
  destruct (init_attributes _ _ _ _ _ _ _ _ _ _ Hinit)
    as [n0 [n1 [n2 [Hc1 [Hb1 [Hl1 [Hl2 [Hl3 [Hap [Hfc [Htemp _]]]]]]]]]]].
  unfold forward.
  cbn [conv1 bn1 layer1 layer2 layer3 avgpool fc temp params set_params].
  rewrite Hc1, Hb1, Hl1, Hl2, Hl3, Hap, Hfc, Htemp.
  rewrite (conv2d_forward_ok (conv3x3 3 16 1) (sub_state_dict "conv1." ps)
                             x N h w Hx);
    [| simpl; lia | simpl; lia | simpl; lia].
  change (Conv2d.out_size (conv3x3 3 16 1))
    with (Conv2d.out_size (conv3x3 0 0 1)).
  rewrite !conv3x3_out_size, !strided_1 by assumption.
  cbn [Py.bind Conv2d.out_channels conv3x3 Conv2d.stride Conv2d.padding].
  erewrite (batch_norm_forward_ok _ _ _ N h w); [| reflexivity | exact Hc1'].
  cbn [Py.bind].
  match goal with
  | |- context [Sequential.forward _ (sub_state_dict "layer1." ps) ?b] =>
      destruct (make_layer_shape 16 (16 * wfactor) n0 1
                  (sub_state_dict "layer1." ps) b N h w)
        as [_ [l1 [E1 S1]]];
        [lia | lia | lia | reflexivity
         | rewrite !strided_1 by assumption; exact Hc1' |]
  end.
  rewrite !strided_1 in S1 by assumption.
  destruct (make_layer_shape (16 * wfactor) (32 * wfactor) n1 2
              (sub_state_dict "layer2." ps) l1 N h w)
    as [_ [l2 [E2 S2]]]; [lia | lia | lia | exact S1 | exact Hc2 |].
  destruct (make_layer_shape (32 * wfactor) (64 * wfactor) n2 2
              (sub_state_dict "layer3." ps) l2 N (strided 2 h) (strided 2 w))
    as [_ [l3 [E3 S3]]];
    [lia | apply strided_pos | apply strided_pos | exact S2 | exact Hc3 |].
  rewrite E1. cbn [Py.bind]. rewrite E2. cbn [Py.bind].
  rewrite E3. cbn [Py.bind].
  exists l3. split; [exact S3 | reflexivity].
Qed.

Lemma avg_pool_8_out h : (8 <= h)%nat ->
  AvgPool2d.out_size {| AvgPool2d.kernel_size := 8; AvgPool2d.stride := 1 |} h
  = (h - 7)%nat.
Proof.
  intros H. unfold AvgPool2d.out_size. cbn [AvgPool2d.kernel_size AvgPool2d.stride].
  rewrite Nat.div_1_r. lia.
Qed.

(** The head of the network on a feature map of any size: the pooling wants
    at least 8x8, and [fc] exactly one pooled value for each channel. *)
Lemma head_on_map wfactor num_classes temp0 (sd : StateDict) (l3 : Tensor)
      N mh mw :
  (1 <= wfactor)%nat -> (1 <= N)%nat ->
  shape l3 = [N; 64 * wfactor; mh; mw] ->
  let head :=
    let? p := AvgPool2d.forward
                {| AvgPool2d.kernel_size := 8; AvgPool2d.stride := 1 |} l3 in
    let? v := view_flat p in
    let? f := Linear.forward
                {| Linear.in_features := 64 * wfactor;
                   Linear.out_features := num_classes |} sd v in
    Ok (div_scalar f temp0) in
  (mh = 8%nat /\ mw = 8%nat ->
   exists y, head = Ok y /\ shape y = [N; num_classes])
  /\ (~ (mh = 8%nat /\ mw = 8%nat) -> head = Raise RuntimeError).
Proof.
  intros Hwf HN Hs head. unfold head. clear head.
  split.
  - intros [-> ->]. rewrite (avg_pool_8_ok l3 N (64 * wfactor) Hs).
    cbn [Py.bind]. erewrite view_flat_ok; [| exact HN | reflexivity].
    cbn [Py.bind]. erewrite linear_forward_ok by reflexivity.
    cbn [Py.bind]. eexists. split; reflexivity.
  - intros Hne. unfold AvgPool2d.forward. rewrite Hs.
    cbn [AvgPool2d.kernel_size AvgPool2d.stride].
    change (0 <? 1)%nat with true. change (0 <? 8)%nat with true.
    cbn [andb].
    destruct (Nat.leb_spec 8 mh) as [Hmh|Hmh]; [|reflexivity].
    destruct (Nat.leb_spec 8 mw) as [Hmw|Hmw]; [|reflexivity].
    cbn [andb Py.bind]. rewrite !avg_pool_8_out by assumption.
    unfold view_flat. cbn [shape].
    destruct (Nat.eqb_spec N 0); [lia|]. cbn [Py.bind fold_right].
    unfold Linear.forward. cbn [shape rev app Linear.in_features].
    destruct (Nat.eqb_spec (64 * wfactor * ((mh - 7) * ((mw - 7) * 1)))
                           (64 * wfactor)) as [E|E]; [|reflexivity].
    exfalso. apply Hne.
    assert ((mh - 7) * (mw - 7) = 1)%nat by nia.
    assert (mh - 7 = 1 /\ mw - 7 = 1)%nat by nia. lia.
Qed.

(** When [forward] returns on a batch of 3-channel images, the three
    layers have brought the images to maps of 8x8. *)
Lemma forward_returns_map layers wfactor num_classes temp0 tau root params0
      rng m rng' (ps : StateDict) (x y : Tensor) N h w :
  __init__ layers wfactor num_classes temp0 tau root params0 rng = Ok (m, rng') ->
  (1 <= N)%nat ->
  shape x = [N; 3; h; w] ->
  forward (set_params ps m) x = Ok y ->
  (1 <= h)%nat /\ (1 <= w)%nat /\ map_size h = 8%nat /\ map_size w = 8%nat.
Proof.
  intros Hinit HN Hx.
  destruct (init_layers _ _ _ _ _ _ _ _ _ _ Hinit)
    as [_ [_ [_ [_ [_ [_ [_ [_ [_ [Hwf _]]]]]]]]]].
  destruct (init_attributes _ _ _ _ _ _ _ _ _ _ Hinit)
    as [n0 [n1 [n2 [Hc1 [Hb1 [Hl1 [Hl2 [Hl3 [Hap [Hfc [Htemp _]]]]]]]]]]].
  unfold forward.
  cbn [conv1 bn1 layer1 layer2 layer3 avgpool fc temp params set_params].
  rewrite Hc1, Hb1, Hl1, Hl2, Hl3, Hap, Hfc, Htemp.
  destruct (Conv2d.forward (conv3x3 3 16 1) _ x) as [a|] eqn:Ea;
    cbn [Py.bind]; [|discriminate].
  apply (conv2d_forward_returns _ _ _ _ N 3 h w) in Ea; [|exact Hx].
  destruct Ea as [Hacc Sa].
  assert (Hh : (1 <= h)%nat /\ (1 <= w)%nat).
  { unfold Conv2d.accepts in Hacc.
    cbn [conv3x3 Conv2d.in_channels Conv2d.stride Conv2d.kernel_size
         Conv2d.padding] in Hacc.
    apply andb_prop in Hacc. destruct Hacc as [Hacc Hw'].
    apply andb_prop in Hacc. destruct Hacc as [_ Hh'].
    apply Nat.leb_le in Hh', Hw'. lia. }
  destruct Hh as [Hh Hw].
  change (Conv2d.out_size (conv3x3 3 16 1))
    with (Conv2d.out_size (conv3x3 0 0 1)) in Sa.
  rewrite !conv3x3_out_size, !strided_1 in Sa by assumption.
  destruct (BatchNorm2d.forward _ _ a) as [b|] eqn:Eb;
    cbn [Py.bind]; [|discriminate].
  apply batch_norm_forward_returns in Eb.
  destruct (Sequential.forward _ (sub_state_dict "layer1." ps) _) as [l1|] eqn:E1;
    cbn [Py.bind]; [|discriminate].
  apply (make_layer_returns _ _ _ _ _ _ _ N 16 h w Hh Hw) in E1;
    [|cbn [relu shape]; rewrite Eb; exact Sa].
  rewrite !strided_1 in E1 by assumption.
  destruct (Sequential.forward _ (sub_state_dict "layer2." ps) _) as [l2|] eqn:E2;
    cbn [Py.bind]; [|discriminate].
  apply (make_layer_returns _ _ _ _ _ _ _ N (16 * wfactor) h w Hh Hw E1) in E2.
  destruct (Sequential.forward _ (sub_state_dict "layer3." ps) _) as [l3|] eqn:E3;
    cbn [Py.bind]; [|discriminate].
  apply (make_layer_returns _ _ _ _ _ _ _ N (32 * wfactor)
           (strided 2 h) (strided 2 w)
           (strided_pos 2 h) (strided_pos 2 w) E2) in E3.
  fold (map_size h) in E3. fold (map_size w) in E3.
  intros Hhead.
  destruct (head_on_map wfactor num_classes temp0 (sub_state_dict "fc." ps)
              l3 N (map_size h) (map_size w) Hwf HN E3) as [_ Hbad].
  destruct (Nat.eq_dec (map_size h) 8) as [Eh|Nh];
    [destruct (Nat.eq_dec (map_size w) 8) as [Ew|Nw]|].
  - auto.
  - rewrite Hbad in Hhead by tauto. discriminate.
  - rewrite Hbad in Hhead by tauto. discriminate.
Qed.



(** X4. On a model built by [__init__] and a non-empty batch of 3-channel
    images, [forward] returns (one row per image, [num_classes] columns)
    exactly for heights and widths from 29 to 32, and raises for every
    other size: on smaller images the 8x8 pooling does not fit the feature
    map (or a batch normalisation is left with a single value for each
    channel), on larger ones [fc] receives more than one value per
    channel. *)
Theorem forward_image_sizes layers wfactor num_classes temp0 tau root params0
        rng m rng' (ps : StateDict) (x : Tensor) N h w :
  __init__ layers wfactor num_classes temp0 tau root params0 rng = Ok (m, rng') ->
  (1 <= N)%nat ->
  shape x = [N; 3; h; w] ->
  ((29 <= h <= 32)%nat /\ (29 <= w <= 32)%nat ->
   exists y, forward (set_params ps m) x = Ok y /\ shape y = [N; num_classes])
  /\ (~ ((29 <= h <= 32)%nat /\ (29 <= w <= 32)%nat) ->
      exists e, forward (set_params ps m) x = Raise e).
Proof.
  intros Hinit HN Hx.
  destruct (init_layers _ _ _ _ _ _ _ _ _ _ Hinit)
    as [_ [_ [_ [_ [_ [_ [_ [_ [_ [Hwf _]]]]]]]]]].
  split.
  - intros [H1 H2].
    assert (Hh : (1 <= h)%nat) by lia. assert (Hw : (1 <= w)%nat) by lia.
    pose proof (map_size_cases h Hh) as Ch.
    pose proof (map_size_cases w Hw) as Cw.
    assert (Eh : map_size h = 8%nat) by lia.
    assert (Ew : map_size w = 8%nat) by lia.
    destruct (forward_through_layers _ _ _ _ _ _ _ _ _ _ ps x N h w
                Hinit Hh Hw Hx ltac:(rewrite Eh, Ew; lia)) as [l3 [S3 ->]].
    destruct (head_on_map wfactor num_classes temp0 (sub_state_dict "fc." ps)
                l3 N (map_size h) (map_size w) Hwf HN S3) as [Hok _].
    apply Hok. split; assumption.
  - intros Hne.
    destruct (forward (set_params ps m) x) as [y|e] eqn:E;
      [|exists e; reflexivity].
    exfalso. apply Hne.
    destruct (forward_returns_map _ _ _ _ _ _ _ _ _ _ ps x y N h w
                Hinit HN Hx E) as [Hh [Hw [Eh Ew]]].
    pose proof (map_size_cases h Hh) as Ch.
    pose proof (map_size_cases w Hw) as Cw.
    lia.
Qed.

(** X5. On a model built by [__init__], a batch whose images do not have
    exactly 3 channels is refused by the first convolution, whatever its
    size: [forward] raises [RuntimeError]. *)
Theorem forward_wrong_channels layers wfactor num_classes temp0 tau root
        params0 rng m rng' (ps : StateDict) (x : Tensor) N c h w :
  __init__ layers wfactor num_classes temp0 tau root params0 rng = Ok (m, rng') ->
  shape x = [N; c; h; w] ->
  c <> 3%nat ->
  forward (set_params ps m) x = Raise RuntimeError.
Proof.
  intros Hinit Hx Hc.
  destruct (init_attributes _ _ _ _ _ _ _ _ _ _ Hinit)
    as [n0 [n1 [n2 [Hc1 _]]]].
  unfold forward. cbn [conv1 params set_params]. rewrite Hc1.
  unfold Conv2d.forward, Conv2d.accepts. rewrite Hx.
  cbn [conv3x3 Conv2d.in_channels].
  destruct (Nat.eqb_spec c 3); [contradiction|]. reflexivity.
Qed.

(** X17. A single image given without the batch dimension never goes
    through: the first convolution accepts an unbatched image of 3 channels
    and the batch normalisation after it wants a batch ([ValueError]); an
    unbatched input that the convolution does not accept raises
    [RuntimeError]. *)
Theorem forward_unbatched_image layers wfactor num_classes temp0 tau root
        params0 rng m rng' (ps : StateDict) (x : Tensor) c h w :
  __init__ layers wfactor num_classes temp0 tau root params0 rng = Ok (m, rng') ->
  shape x = [c; h; w] ->
  (c = 3%nat /\ (1 <= h)%nat /\ (1 <= w)%nat ->
   exists a,
     Conv2d.forward (conv1 m) (sub_state_dict "conv1." ps) x = Ok a
     /\ shape a = [16; h; w]%nat
     /\ forward (set_params ps m) x = Raise ValueError)
  /\ (~ (c = 3%nat /\ (1 <= h)%nat /\ (1 <= w)%nat) ->
      forward (set_params ps m) x = Raise RuntimeError).
Proof.
  intros Hinit Hx.
  destruct (init_attributes _ _ _ _ _ _ _ _ _ _ Hinit)
    as [n0 [n1 [n2 [Hc1 [Hb1 _]]]]].
  unfold forward. cbn [conv1 bn1 params set_params]. rewrite Hc1, Hb1.
  unfold Conv2d.forward, Conv2d.accepts. rewrite Hx.
  cbn [conv3x3 Conv2d.in_channels Conv2d.stride Conv2d.kernel_size
       Conv2d.padding Conv2d.out_channels].
  change (0 <? 1)%nat with true. rewrite andb_true_r.
  split.
  - intros [-> [Hh Hw]]. rewrite Nat.eqb_refl.
    destruct (Nat.leb_spec 3 (h + 2 * 1)); [|lia].
    destruct (Nat.leb_spec 3 (w + 2 * 1)); [|lia].
    cbn [andb Py.bind].
    change (Conv2d.out_size (conv3x3 3 16 1))
      with (Conv2d.out_size (conv3x3 0 0 1)).
    rewrite !conv3x3_out_size, !strided_1 by assumption.
    eexists. split; [reflexivity|]. split; reflexivity.
  - intros Hne.
    destruct (Nat.eqb_spec c 3) as [->|]; [|reflexivity].
    destruct (Nat.leb_spec 3 (h + 2 * 1)); [|reflexivity].
    destruct (Nat.leb_spec 3 (w + 2 * 1)); [|rewrite andb_false_r; reflexivity].
    exfalso. apply Hne. repeat split; lia.
Qed.

End Sizes.

(* ================================================================== *)
(** * Behaviour of the loading methods *)
(* ================================================================== *)

Section LoaderBehaviour.
Context {T : Torch} {U : Utils}.
Import Wide_ResNet_Cifar.

Lemma get_Some_In {V} k (v : V) (d : dict V) : get k d = Some v -> In (k, v) d.
Proof.
  induction d as [|[k0 v0] d IH]; simpl; [discriminate|].
  destruct (String.eqb_spec k0 k) as [->|]; intros H.
  - left. congruence.
  - right. auto.
Qed.

Lemma get_Some_key {V} k (v : V) (d : dict V) : get k d = Some v -> In k (keys d).
Proof.
  intros H. apply get_Some_In in H. change k with (fst (k, v)).
  apply in_map, H.
Qed.

Lemma after_loads_first {A} nm (k : StateDict -> M A) w :
  (exists n, nm = format_name (weight_root (self w)) (model_name (self w)) n) ->
  (forall d w1, after_loads w1 (fst (k d w1))) ->
  after_loads w (fst (mbind (torch_load nm) k w)).
Proof.
  intros Hnm Hk. unfold mbind.
  pose proof (after_loads_torch_load nm w Hnm) as H1.
  destruct (torch_load nm w) as [w1 [d|e]]; cbn [fst] in H1; [|exact H1].
  eapply after_loads_trans; [exact H1 | apply Hk].
Qed.

Lemma after_loads_load_combination index w :
  after_loads w (fst (load_combination index w)).
Proof.
  rewrite load_combination_rounds.
  apply after_loads_first; [eexists; reflexivity|].
  intros d w1. apply after_loads_rounds_then.
  intros w'. unfold mbind, get_ops, lift. destruct (ops (self w')); reflexivity.
Qed.

Lemma after_loads_load_combination_weight combination weight_folder mn w :
  after_loads
    {| self := set_weight_root weight_folder (self w);
       files := files w; opened := opened w |}
    (fst (load_combination_weight combination weight_folder mn w)).
Proof.
  rewrite load_combination_weight_rounds.
  apply after_loads_first; [eexists; reflexivity|].
  intros d w1. apply after_loads_rounds.
Qed.

Lemma after_loads_load_gumbel_weight w :
  after_loads w (fst (load_gumbel_weight w)).
Proof.
  destruct (arch_weights (self w) false false) as [weights|e] eqn:Ew.
  - destruct (torch_argmax weights (-1)) as [combination|e] eqn:Ea.
    + destruct (getitem combination 0) as [c|e] eqn:Ec.
      * rewrite (load_gumbel_weight_rounds w weights combination c Ew Ea Ec).
        apply after_loads_first; [eexists; reflexivity|].
        intros d w1. apply after_loads_rounds_then. reflexivity.
      * unfold load_gumbel_weight. rewrite mbind_gets.
        unfold mbind at 1. unfold lift at 1. rewrite Ew.
        unfold mbind at 1. unfold lift at 1. rewrite Ea.
        rewrite !mbind_gets. unfold mbind at 1. unfold lift at 1. rewrite Ec.
        apply after_loads_refl.
    + unfold load_gumbel_weight. rewrite mbind_gets.
      unfold mbind at 1. unfold lift at 1. rewrite Ew.
      unfold mbind at 1. unfold lift at 1. rewrite Ea.
      apply after_loads_refl.
  - unfold load_gumbel_weight. rewrite mbind_gets.
    unfold mbind at 1. unfold lift at 1. rewrite Ew.
    apply after_loads_refl.
Qed.

Lemma after_loads_facts w w' :
  after_loads w w' ->
  self w' = set_params (params (self w')) (self w)
  /\ signature (params (self w')) = signature (params (self w))
  /\ files w' = files w
  /\ exists l, opened w' = (opened w ++ l)%list.
Proof.
  intros [[ps Hs] [Hsig [Hf [l [Ho _]]]]].
  split; [rewrite Hs; reflexivity|]. split; [exact Hsig|].
  split; [exact Hf|]. exists l. exact Ho.
Qed.

(** X8. Whether they return or raise, the three loading methods change
    nothing of the model but the tensors of its parameters (and, for
    [load_combination_weight], [weight_root], which becomes
    [weight_folder]): the names and sizes of the parameters are as before,
    the disk is not written, and the list of opened files only grows. *)
Theorem loading_changes_tensors_only (w : World) :
  (forall index,
      let w' := fst (load_combination index w) in
      self w' = set_params (params (self w')) (self w)
      /\ signature (params (self w')) = signature (params (self w))
      /\ files w' = files w
      /\ exists l, opened w' = (opened w ++ l)%list)
  /\ (forall combination weight_folder mn,
         let w' := fst (load_combination_weight combination weight_folder mn w) in
         self w' = set_params (params (self w'))
                              (set_weight_root weight_folder (self w))
         /\ signature (params (self w')) = signature (params (self w))
         /\ files w' = files w
         /\ exists l, opened w' = (opened w ++ l)%list)
  /\ (let w' := fst (load_gumbel_weight w) in
      self w' = set_params (params (self w')) (self w)
      /\ signature (params (self w')) = signature (params (self w))
      /\ files w' = files w
      /\ exists l, opened w' = (opened w ++ l)%list).
Proof.
  split; [|split].
  - intros index. apply after_loads_facts, after_loads_load_combination.
  - intros combination weight_folder mn.
    apply (after_loads_facts
             {| self := set_weight_root weight_folder (self w);
                files := files w; opened := opened w |}),
          after_loads_load_combination_weight.
  - apply after_loads_facts, after_loads_load_gumbel_weight.
Qed.

Lemma forward_architecture (s s' : t) (x : Tensor) :
  architecture_of s = architecture_of s' -> params s = params s' ->
  forward s x = forward s' x.
Proof.
  unfold architecture_of, forward. intros H Hp. injection H as -> -> -> -> -> -> -> ->.
  rewrite Hp. reflexivity.
Qed.

Lemma forward_after_loads layers wfactor num_classes temp0 tau root params0
      rng m rng' (w w' : World) r (x : Tensor) N :
  __init__ layers wfactor num_classes temp0 tau root params0 rng = Ok (m, rng') ->
  architecture_of (self w) = architecture_of m ->
  after_loads {| self := set_weight_root r (self w);
                 files := files w; opened := opened w |} w' ->
  (1 <= N)%nat -> shape x = [N; 3; 32; 32]%nat ->
  exists y, forward (self w') x = Ok y /\ shape y = [N; num_classes].
Proof.
  intros Hinit Harch [[ps Hs] _] HN Hx.
  rewrite (forward_architecture (self w') (set_params ps m) x).
  - destruct (init_layers _ _ _ _ _ _ _ _ _ _ Hinit)
      as [_ [_ [_ [_ [_ [_ [_ [_ [_ [Hwf _]]]]]]]]]].
    destruct (forward_through_layers _ _ _ _ _ _ _ _ _ _ ps x N 32 32
                Hinit ltac:(lia) ltac:(lia) Hx
                ltac:(change (map_size 32) with 8%nat; lia)) as [l3 [S3 ->]].
    apply (head_on_map wfactor num_classes temp0 (sub_state_dict "fc." ps)
             l3 N 8 8 Hwf HN S3). split; reflexivity.
  - rewrite Hs. transitivity (architecture_of (self w)); [reflexivity|].
    rewrite Harch. reflexivity.
  - rewrite Hs. reflexivity.
Qed.

(** X9. Loading never breaks the forward pass: on a model with the
    architecture [__init__] built, after any of the three loading methods,
    returned or raised, [forward] still maps a non-empty batch of 3-channel
    32x32 images to one row per image and [num_classes] columns. *)
Theorem forward_after_loading layers wfactor num_classes temp0 tau root params0
        rng m rng' (w : World) (x : Tensor) N :
  __init__ layers wfactor num_classes temp0 tau root params0 rng = Ok (m, rng') ->
  architecture_of (self w) = architecture_of m ->
  (1 <= N)%nat -> shape x = [N; 3; 32; 32]%nat ->
  (forall index,
      exists y, forward (self (fst (load_combination index w))) x = Ok y
                /\ shape y = [N; num_classes])
  /\ (forall combination weight_folder mn,
         exists y,
           forward (self (fst (load_combination_weight
                                 combination weight_folder mn w))) x = Ok y
           /\ shape y = [N; num_classes])
  /\ (exists y, forward (self (fst (load_gumbel_weight w))) x = Ok y
                /\ shape y = [N; num_classes]).
Proof.
  intros Hinit Harch HN Hx. split; [|split].
  - intros index.
    apply (forward_after_loads _ _ _ _ _ _ _ _ _ _ w _ (weight_root (self w))
             x N Hinit Harch); [|exact HN | exact Hx].
    rewrite set_weight_root_same.
    replace {| self := self w; files := files w; opened := opened w |} with w
      by (destruct w; reflexivity).
    apply after_loads_load_combination.
  - intros combination weight_folder mn.
    apply (forward_after_loads _ _ _ _ _ _ _ _ _ _ w _ weight_folder
             x N Hinit Harch); [|exact HN | exact Hx].
    apply after_loads_load_combination_weight.
  - apply (forward_after_loads _ _ _ _ _ _ _ _ _ _ w _ (weight_root (self w))
             x N Hinit Harch); [|exact HN | exact Hx].
    rewrite set_weight_root_same.
    replace {| self := self w; files := files w; opened := opened w |} with w
      by (destruct w; reflexivity).
    apply after_loads_load_gumbel_weight.
Qed.

Lemma index_head b rest : Py.index b (b :: rest) = Ok 0%nat.
Proof. simpl. rewrite String.eqb_refl. reflexivity. Qed.

(** The rounds of [load_combination] on a model without [ops]. *)
Lemma rounds_without_ops index w :
  ops (self w) = None ->
  mbind (for_each (block_names (self w)) (block_round (num_ops_index index)))
        (fun _ => mbind get_ops (fun o => lift (getitem_tensor o index))) w
  = (w, Raise AttributeError).
Proof.
  intros Hops. unfold mbind at 1.
  destruct (block_names (self w)) as [|b rest] eqn:Hn.
  - cbn [for_each]. unfold ret, mbind, get_ops. rewrite Hops. reflexivity.
  - cbn [for_each]. unfold mbind at 1.
    unfold block_round, mbind, gets, lift, num_ops_index.
    rewrite Hn, index_head, Hops. reflexivity.
Qed.

(** X10. On a model whose [ops] was never assigned (as [__init__] leaves
    it), [load_combination] never returns; when checkpoint 350 is there and
    fits, the model has been overwritten from it, no other file has been
    opened, and the exception is [AttributeError]. *)
Theorem load_combination_without_ops (index : list Z) (w : World) :
  ops (self w) = None ->
  (exists e, snd (load_combination index w) = Raise e)
  /\ (forall d,
        files w (format_name (weight_root (self w)) (model_name (self w)) 350)
        = Some d ->
        load_errors "" d false (params (self w)) = false ->
        load_combination index w
        = ({| self := set_params (copy_params "" d (params (self w))) (self w);
              files := files w;
              opened :=
                (opened w
                 ++ [format_name (weight_root (self w)) (model_name (self w))
                                 350])%list |},
           Raise AttributeError)).
Proof.
  intros Hops.
  assert (Hgen : forall d,
             files w (format_name (weight_root (self w)) (model_name (self w)) 350)
             = Some d ->
             load_combination index w
             = ({| self := set_params (copy_params "" d (params (self w))) (self w);
                   files := files w;
                   opened :=
                     (opened w
                      ++ [format_name (weight_root (self w))
                                      (model_name (self w)) 350])%list |},
                if load_errors "" d false (params (self w))
                then Raise RuntimeError else Raise AttributeError)).
  { intros d Hf. rewrite load_combination_rounds.
    unfold mbind at 1. unfold torch_load. rewrite Hf.
    unfold mbind at 1. unfold self_load_state_dict, load_state_dict.
    cbn [self files opened].
    destruct (load_errors "" d false (params (self w))); [reflexivity|].
    rewrite mbind_gets. apply rounds_without_ops. exact Hops. }
  split.
  - destruct (files w (format_name (weight_root (self w)) (model_name (self w))
                                   350)) as [d|] eqn:Hf.
    + rewrite (Hgen d eq_refl). cbn [snd].
      destruct (load_errors _ _ _ _); eexists; reflexivity.
    + rewrite load_combination_rounds. unfold mbind, torch_load. rewrite Hf.
      eexists. reflexivity.
  - intros d Hf He. rewrite (Hgen d Hf), He. reflexivity.
Qed.

(** X11. When checkpoint 350 is missing, [load_combination] and
    [load_combination_weight] raise [FileNotFoundError] with the parameters
    untouched; [load_combination_weight] has by then replaced
    [weight_root] by [weight_folder]. *)
Theorem first_checkpoint_missing (w : World) :
  (forall index,
      files w (format_name (weight_root (self w)) (model_name (self w)) 350)
      = None ->
      load_combination index w
      = ({| self := self w; files := files w;
            opened :=
              (opened w
               ++ [format_name (weight_root (self w)) (model_name (self w))
                               350])%list |},
         Raise FileNotFoundError))
  /\ (forall combination weight_folder mn,
         files w (format_name weight_folder (model_name (self w)) 350) = None ->
         load_combination_weight combination weight_folder mn w
         = ({| self := set_weight_root weight_folder (self w);
               files := files w;
               opened :=
                 (opened w
                  ++ [format_name weight_folder (model_name (self w)) 350])%list |},
            Raise FileNotFoundError)).
Proof.
  split.
  - intros index Hf. rewrite load_combination_rounds.
    unfold mbind, torch_load. rewrite Hf. reflexivity.
  - intros combination weight_folder mn Hf.
    rewrite load_combination_weight_rounds.
    unfold mbind, torch_load. cbn [self files opened]. rewrite Hf. reflexivity.
Qed.

(** X12. [load_combination_weight] reads no entry of [combination] but the
    first: two combinations with the same first entry (or both empty) give
    the same result in every world. *)
Theorem load_combination_weight_first_entry (c1 c2 : list Z)
        (weight_folder : option string) (mn : string) (w : World) :
  getitem c1 0 = getitem c2 0 ->
  load_combination_weight c1 weight_folder mn w
  = load_combination_weight c2 weight_folder mn w.
Proof.
  intros H. rewrite !load_combination_weight_rounds.
  apply mbind_ext. intros d w1. apply mbind_ext. intros _ w2.
  apply mbind_ext. intros names w3. apply for_each_ext. intros b w4.
  unfold block_round, num_first. rewrite H. reflexivity.
Qed.

(** X13. With an empty [combination], [load_combination_weight] still
    overwrites the model from checkpoint 350 (when it is there and fits)
    before its first round raises [IndexError]; [load_gumbel_weight], whose
    [combination[0]] comes first, raises [IndexError] on an empty arg-max
    with nothing opened and nothing changed. *)
Theorem empty_combination (w : World) :
  (forall weight_folder mn d b rest,
      block_names (self w) = b :: rest ->
      files w (format_name weight_folder (model_name (self w)) 350) = Some d ->
      load_errors "" d false (params (self w)) = false ->
      load_combination_weight [] weight_folder mn w
      = ({| self := set_params (copy_params "" d (params (self w)))
                               (set_weight_root weight_folder (self w));
            files := files w;
            opened :=
              (opened w
               ++ [format_name weight_folder (model_name (self w)) 350])%list |},
         Raise IndexError))
  /\ (forall weights,
         arch_weights (self w) false false = Ok weights ->
         torch_argmax weights (-1) = Ok [] ->
         load_gumbel_weight w = (w, Raise IndexError)).
Proof.
  split.
  - intros weight_folder mn d b rest Hn Hf He.
    rewrite load_combination_weight_rounds.
    unfold mbind at 1. unfold torch_load. cbn [self files opened]. rewrite Hf.
    unfold mbind at 1. unfold self_load_state_dict, load_state_dict.
    cbn [self files opened params set_weight_root]. rewrite He.
    rewrite mbind_gets. cbn [self block_names set_params].
    change (block_names (set_weight_root weight_folder (self w)))
      with (block_names (self w)).
    rewrite Hn. cbn [for_each]. unfold mbind at 1.
    unfold block_round, mbind, gets, lift, num_first.
    cbn [self block_names set_params].
    change (block_names (set_weight_root weight_folder (self w)))
      with (block_names (self w)).
    rewrite Hn, index_head. reflexivity.
  - intros weights Hw Ha. unfold load_gumbel_weight. rewrite mbind_gets.
    unfold mbind at 1. unfold lift at 1. rewrite Hw.
    unfold mbind at 1. unfold lift at 1. rewrite Ha.
    rewrite !mbind_gets. reflexivity.
Qed.



Lemma load_gumbel_weight_returns w c :
  snd (load_gumbel_weight w) = Ok c ->
  exists weights,
    arch_weights (self w) false false = Ok weights
    /\ torch_argmax weights (-1) = Ok c.
Proof.
  intros H.
  destruct (arch_weights (self w) false false) as [weights|e] eqn:Ew.
  - destruct (torch_argmax weights (-1)) as [combination|e] eqn:Ea.
    + exists weights. split; [reflexivity|].
      destruct (getitem combination 0) as [c0|e] eqn:Ec.
      * rewrite (load_gumbel_weight_rounds w weights combination c0 Ew Ea Ec) in H.
        unfold mbind in H.
        destruct (torch_load _ w) as [w1 [d|e]]; [|discriminate].
        destruct (self_load_state_dict d true w1) as [w2 [[]|e]]; [|discriminate].
        unfold gets in H. cbn [fst snd] in H.
        destruct (for_each _ _ w2) as [w3 [[]|e]]; [|discriminate].
        unfold ret in H. cbn [snd] in H. rewrite Ea. exact H.
      * unfold load_gumbel_weight in H. rewrite mbind_gets in H.
        unfold mbind at 1 in H. unfold lift at 1 in H. rewrite Ew in H.
        unfold mbind at 1 in H. unfold lift at 1 in H. rewrite Ea in H.
        rewrite !mbind_gets in H. unfold mbind at 1 in H.
        unfold lift at 1 in H. rewrite Ec in H. discriminate.
    + unfold load_gumbel_weight in H. rewrite mbind_gets in H.
      unfold mbind at 1 in H. unfold lift at 1 in H. rewrite Ew in H.
      unfold mbind at 1 in H. unfold lift at 1 in H. rewrite Ea in H.
      discriminate.
  - unfold load_gumbel_weight in H. rewrite mbind_gets in H.
    unfold mbind at 1 in H. unfold lift at 1 in H. rewrite Ew in H.
    discriminate.
Qed.

(** X16. The combination [load_gumbel_weight] returns is the arg-max of
    [arch_weights(cat=False)], which no loading changes: whenever the method
    returns again, after itself or after any other loading method, it
    returns the same combination. *)
Theorem load_gumbel_weight_same_combination (w : World) (c : list Z) :
  snd (load_gumbel_weight w) = Ok c ->
  (exists weights,
      arch_weights (self w) false false = Ok weights
      /\ torch_argmax weights (-1) = Ok c)
  /\ (forall c',
        snd (load_gumbel_weight (fst (load_gumbel_weight w))) = Ok c' -> c' = c)
  /\ (forall index c',
        snd (load_gumbel_weight (fst (load_combination index w))) = Ok c' ->
        c' = c)
  /\ (forall combination weight_folder mn c',
        snd (load_gumbel_weight
               (fst (load_combination_weight combination weight_folder mn w)))
        = Ok c' ->
        c' = c).
Proof.
  intros H. destruct (load_gumbel_weight_returns w c H) as [weights [Ew Ea]].
  assert (Hsame : forall w' c',
             arch_weights (self w') false false
             = arch_weights (self w) false false ->
             snd (load_gumbel_weight w') = Ok c' -> c' = c).
  { intros w' c' Heq H'.
    destruct (load_gumbel_weight_returns w' c' H') as [weights' [Ew' Ea']].
    rewrite Heq, Ew in Ew'. injection Ew' as <-. congruence. }
  split; [exists weights; split; assumption|].
  split; [|split].
  - intros c'. apply Hsame, arch_weights_after_loads,
                 after_loads_load_gumbel_weight.
  - intros index c'. apply Hsame, arch_weights_after_loads,
                       after_loads_load_combination.
  - intros combination weight_folder mn c'. apply Hsame.
    rewrite (arch_weights_after_loads
               _ _ false false
               (after_loads_load_combination_weight combination weight_folder
                                                    mn w)).
    reflexivity.
Qed.

End LoaderBehaviour.

(* ================================================================== *)
(** * The further properties on the small instance *)
(* ================================================================== *)

Section MoreExamples.
Import Wide_ResNet_Cifar.
#[local] Existing Instance Toy.torch.
#[local] Existing Instance Toy.utils.

Lemma init_returns_witness :
  exists m rng',
    __init__ [1; 1; 1]%Z 1 10 1%Z 1%Z (Some Toy.folder) Toy.params0 0%Z
    = Ok (m, rng').
Proof.
  apply (proj2 (proj1 (init_returns
                         (T := Toy.torch) (U := Toy.utils)
                         [1; 1; 1]%Z 1 10 1%Z 1%Z (Some Toy.folder)
                         Toy.params0 0%Z))).
  split; [simpl; lia | split; [lia | reflexivity]].
Defined.

Lemma wide_resnet_cifar_depth_witness :
  exists m rng',
    wide_resnet_cifar 1%Z 10 26 10 1%Z None Toy.params0 0%Z = Ok (m, rng')
    /\ length (layer1 m) = 4%nat.
Proof.
  destruct (proj2 (proj2 (proj2 (wide_resnet_cifar_depth
                                   (T := Toy.torch) (U := Toy.utils)
                                   1%Z 10 26 10 1%Z None Toy.params0 0%Z)))
                  eq_refl ltac:(lia) eq_refl)
    as [m [rng' [H [L1 _]]]].
  exists m, rng'. split; [exact H | exact L1].
Defined.

Lemma forward_image_sizes_witness :
  exists y,
    forward (set_params (Toy.checkpoint 3) Toy.model)
            (Toy.tn [2; 3; 30; 29] 0) = Ok y
    /\ shape y = [2; 10]%nat.
Proof.
  apply (proj1 (forward_image_sizes
                  (T := Toy.torch) (U := Toy.utils)
                  [1; 1; 1]%Z 1 10 1%Z 1%Z (Some Toy.folder) Toy.params0 0%Z
                  Toy.model 2%Z (Toy.checkpoint 3) (Toy.tn [2; 3; 30; 29] 0)
                  2 30 29 eq_refl ltac:(lia) eq_refl)).
  lia.
Defined.

Lemma forward_wrong_channels_witness :
  forward (set_params (Toy.checkpoint 3) Toy.model) (Toy.tn [2; 1; 32; 32] 0)
  = Raise RuntimeError.
Proof.
  apply (forward_wrong_channels
           (T := Toy.torch) (U := Toy.utils)
           [1; 1; 1]%Z 1 10 1%Z 1%Z (Some Toy.folder) Toy.params0 0%Z
           Toy.model 2%Z (Toy.checkpoint 3) (Toy.tn [2; 1; 32; 32] 0)
           2 1 32 32 eq_refl eq_refl).
  discriminate.
Defined.

Lemma forward_unbatched_image_witness :
  forward (set_params (Toy.checkpoint 3) Toy.model) (Toy.tn [3; 32; 32] 0)
  = Raise ValueError.
Proof.
  destruct (proj1 (forward_unbatched_image
                     (T := Toy.torch) (U := Toy.utils)
                     [1; 1; 1]%Z 1 10 1%Z 1%Z (Some Toy.folder) Toy.params0 0%Z
                     Toy.model 2%Z (Toy.checkpoint 3) (Toy.tn [3; 32; 32] 0)
                     3 32 32 eq_refl eq_refl)
                  ltac:(repeat split; lia))
    as [a [_ [_ H]]].
  exact H.
Defined.



Lemma forward_after_loading_witness :
  exists y,
    forward (self (fst (load_gumbel_weight Toy.world)))
            (Toy.tn [2; 3; 32; 32] 0) = Ok y
    /\ shape y = [2; 10]%nat.
Proof.
  exact (proj2 (proj2 (forward_after_loading
                         (T := Toy.torch) (U := Toy.utils)
                         [1; 1; 1]%Z 1 10 1%Z 1%Z (Some Toy.folder)
                         Toy.params0 0%Z Toy.model 2%Z Toy.world
                         (Toy.tn [2; 3; 32; 32] 0) 2
                         eq_refl eq_refl ltac:(lia) eq_refl))).
Defined.

Lemma load_combination_without_ops_witness :
  exists e, snd (load_combination [0; 1; 2; 3]%Z Toy.world) = Raise e.
Proof.
  exact (proj1 (load_combination_without_ops [0; 1; 2; 3]%Z Toy.world eq_refl)).
Defined.

Lemma first_checkpoint_missing_witness :
  load_combination_weight [0; 1; 2; 3]%Z (Some "nowhere") "wide_resnet" Toy.world
  = ({| self := set_weight_root (Some "nowhere") Toy.model;
        files := Toy.disk;
        opened := ["nowhere/wide_resnet_cross_entropy_350.model"] |},
     Raise FileNotFoundError).
Proof.
  exact (proj2 (first_checkpoint_missing Toy.world)
               [0; 1; 2; 3]%Z (Some "nowhere") "wide_resnet" eq_refl).
Defined.

Lemma load_combination_weight_first_entry_witness :
  load_combination_weight [0; 1; 2; 3]%Z (Some Toy.folder) "wide_resnet" Toy.world
  = load_combination_weight [0; 3; 3; 3]%Z (Some Toy.folder) "wide_resnet" Toy.world.
Proof.
  exact (load_combination_weight_first_entry
           [0; 1; 2; 3]%Z [0; 3; 3; 3]%Z (Some Toy.folder) "wide_resnet"
           Toy.world eq_refl).
Defined.

Lemma empty_combination_witness :
  load_combination_weight [] (Some Toy.folder) "wide_resnet" Toy.world
  = ({| self := set_params (copy_params "" (Toy.checkpoint 350) Toy.params0)
                           (set_weight_root (Some Toy.folder) Toy.model);
        files := Toy.disk;
        opened := ["ckpt/wide_resnet_cross_entropy_350.model"] |},
     Raise IndexError).
Proof.
  exact (proj1 (empty_combination Toy.world)
               (Some Toy.folder) "wide_resnet" (Toy.checkpoint 350)
               "layer1" ["layer2"; "layer3"; "fc"] eq_refl eq_refl eq_refl).
Defined.



Lemma load_gumbel_weight_same_combination_witness :
  exists weights,
    arch_weights (self Toy.world) false false = Ok weights
    /\ torch_argmax weights (-1) = Ok [0; 2; 4; 6]%Z.
Proof.
  exact (proj1 (load_gumbel_weight_same_combination
                  Toy.world [0; 2; 4; 6]%Z eq_refl)).
Defined.

End MoreExamples.
